(** * SaveBite: the localStorage-backed pseudo-API, embedded in Rocq

    The development follows [src/cart.js] (the [CartService], [ApiService]
    and [AuthService] classes), [src/listing.js] (the listing page's
    [addToCart]) and [src/JS/utils.js] ([isExpired], [calculateDiscount]).

    Conventions of the embedding:
    - the four localStorage keys and the session key form one [Store]
      record; every method reads the store, and returns its result together
      with the store it leaves behind (the [setTimeout]/[Promise] wrappers
      only delay the single synchronous body, which is what is modelled);
    - [Date.now()] and [generateId()] are inputs of the methods that call
      them; a date is its millisecond time stamp (ISO strings written by
      [toISOString] and read back by [new Date] are in bijection with them);
    - JavaScript numbers that hold prices sit behind the [JSNumber]
      interface, whose instance is IEEE binary64, the numbers the program
      runs on; quantities are integers (in the program they are doubles
      that hold integers, and its arithmetic on them is exact as long as
      they stay within the safe integers);
    - strings that the source compares with [===] stay strings (roles and
      statuses are not validated by the code). *)

From Stdlib Require Import ZArith QArith Floats Lia Sorted.
From stdpp Require Import base list strings pretty.

#[local] Set Warnings "-inexact-float".
#[local] Open Scope Z_scope.

(** ** JavaScript numbers *)

(** The operations the modelled code performs on prices, and the three
    numeric literals it uses. [num_round] is [Math.round]; it yields no
    integer on [NaN] and the infinities. *)
Class JSNumber (num : Type) := {
  num_zero : num;
  num_add : num -> num -> num;
  num_sub : num -> num -> num;
  num_mul : num -> num -> num;
  num_div : num -> num -> num;
  num_of_Z : Z -> num;
  num_round : num -> option Z;
  lit_0_08 : num;
  lit_1_08 : num;
  lit_100 : num
}.

(** Integers to binary64; exact on the safe integers of JavaScript. *)
Definition float_of_Z (z : Z) : float :=
  match z with
  | Z0 => 0%float
  | Zpos _ => PrimFloat.of_uint63 (Uint63.of_Z z)
  | Zneg _ => PrimFloat.opp (PrimFloat.of_uint63 (Uint63.of_Z (- z)))
  end.

(** [Math.round] on a finite binary64 [(-1)^s * m * 2^e]: the integer
    [floor (x + 1/2)], computed exactly. *)
Definition float_round (x : float) : option Z :=
  match Prim2SF x with
  | S754_zero _ => Some 0
  | S754_finite s m e =>
      let v := if s then Z.neg m else Z.pos m in
      if 0 <=? e then Some (v * 2 ^ e)
      else Some ((2 * v + 2 ^ (- e)) / 2 ^ (1 - e))
  | S754_infinity _ => None
  | S754_nan => None
  end.

(** The rational number that a finite binary64 stands for; [None] on [NaN]
    and the infinities. *)
Definition float_value (x : float) : option Q :=
  match Prim2SF x with
  | S754_zero _ => Some 0%Q
  | S754_finite s m e =>
      let v := if s then Z.neg m else Z.pos m in
      Some (if 0 <=? e then inject_Z (v * 2 ^ e)
            else Qmake v (Z.to_pos (2 ^ (- e))))
  | S754_infinity _ => None
  | S754_nan => None
  end.

#[export] Instance float_JSNumber : JSNumber float := {
  num_zero := 0%float;
  num_add := PrimFloat.add;
  num_sub := PrimFloat.sub;
  num_mul := PrimFloat.mul;
  num_div := PrimFloat.div;
  num_of_Z := float_of_Z;
  num_round := float_round;
  lit_0_08 := 0.08%float;
  lit_1_08 := 1.08%float;
  lit_100 := 100%float
}.

(** ** utils.js *)

(** [isExpired(date)]: [new Date(date) < new Date()]. *)
Definition isExpired (now : Z) (date : Z) : bool := date <? now.

(** [calculateDiscount(originalPrice, discountedPrice)]:
    [Math.round(((originalPrice - discountedPrice) / originalPrice) * 100)]. *)
Definition calculateDiscount {num : Type} `{!JSNumber num}
    (originalPrice discountedPrice : num) : option Z :=
  num_round
    (num_mul (num_div (num_sub originalPrice discountedPrice) originalPrice)
       lit_100).

(** ** Arrays *)

(** [Array.prototype.findIndex]; [None] stands for [-1]. *)
Fixpoint findIndex {A : Type} (p : A -> bool) (l : list A) : option nat :=
  match l with
  | [] => None
  | x :: l' => if p x then Some 0%nat else S <$> findIndex p l'
  end.

(** [Array.prototype.sort] with a comparator [(a, b) => key b - key a] over
    integer keys: a stable sort, largest key first ([sort_desc] inserts the
    elements from the last to the first, each in front of the first element
    whose key is not larger). *)
Fixpoint insert_desc {A : Type} (key : A -> Z) (x : A) (l : list A) : list A :=
  match l with
  | [] => [x]
  | y :: l' =>
      if key y <=? key x then x :: y :: l' else y :: insert_desc key x l'
  end.

Definition sort_desc {A : Type} (key : A -> Z) (l : list A) : list A :=
  foldr (insert_desc key) [] l.

(** ** Data model: the JSON values kept in localStorage *)

(** The business-only properties the [User] constructor adds. *)
Record BusinessProfile := {
  businessName : string;
  businessType : string;
  businessAddress : string;
  businessDescription : string
}.

Record User := {
  user_id : string;
  user_name : string;
  user_email : string;
  user_role : string;
  user_password : string;
  user_createdAt : Z;
  user_status : string;
  user_updatedAt : option Z;
  user_business : option BusinessProfile
}.

Record Session := {
  session_userId : string;
  session_userEmail : string;
  session_userName : string;
  session_userRole : string;
  session_createdAt : Z;
  session_expiresAt : Z
}.

Record Listing {num : Type} := {
  listing_id : string;
  listing_businessId : string;
  listing_businessName : string;
  listing_foodName : string;
  listing_category : string;
  listing_description : string;
  listing_originalPrice : num;
  listing_discountedPrice : num;
  listing_quantity : Z;
  listing_expiryDate : Z;
  listing_imageUrl : string;
  listing_pickupOnly : bool;
  listing_pickupAddress : string;
  listing_status : string;
  listing_createdAt : Z;
  listing_updatedAt : option Z
}.
Arguments Listing : clear implicits.

Record CartItem {num : Type} := {
  item_id : string;
  item_businessId : string;
  item_businessName : string;
  item_name : string;
  item_originalPrice : num;
  item_discountedPrice : num;
  item_quantity : Z;
  item_imageUrl : string;
  item_expiryDate : Z;
  item_pickupOnly : bool;
  item_pickupAddress : string
}.
Arguments CartItem : clear implicits.

(** The [orderData] object that [submitCheckoutForm], the one caller of
    [createOrder], builds and that [createOrder] spreads into the new
    order: these eight properties and no other. *)
Record OrderData := {
  customerName : string;
  customerEmail : string;
  customerPhone : string;
  pickupTime : Z;
  notes : string;
  pickupLocationId : string;
  pickupLocationName : string;
  pickupAddress : string
}.

Record Order {num : Type} := {
  order_id : string;
  order_userId : string;
  order_userName : string;
  order_userEmail : string;
  order_items : list (CartItem num);
  order_data : OrderData;
  order_subtotal : num;
  order_savings : num;
  order_tax : num;
  order_total : num;
  order_status : string;
  order_createdAt : Z;
  order_updatedAt : option Z
}.
Arguments Order : clear implicits.

(** localStorage: [savebite_users], [savebite_listings], [savebite_orders],
    [savebite_cart] (its [items] array) and [savebite_session]. A missing
    array reads as the empty one, as every [x ? JSON.parse(x) : []] does. *)
Record Store {num : Type} := {
  users : list User;
  listings : list (Listing num);
  orders : list (Order num);
  cart : list (CartItem num);
  session : option Session
}.
Arguments Store : clear implicits.

(** The result objects [{ success, message }] and [{ success, <payload> }]. *)
Inductive Result (A : Type) :=
  | Success (payload : A)
  | Failure (message : string).
Arguments Success {A} payload.
Arguments Failure {A} message.

Definition success {A : Type} (r : Result A) : bool :=
  match r with Success _ => true | Failure _ => false end.

(** JavaScript truthiness of a string, and of an optional string property. *)
Definition truthy (s : string) : bool := negb (String.eqb s "").

Definition truthy_opt (s : option string) : bool :=
  match s with Some s => truthy s | None => false end.

(** Field updates of the stored objects (JavaScript assignments such as
    [order.status = status] on a parsed copy). *)
Definition set_session {num} (s : option Session) (st : Store num) : Store num :=
  {| users := users st; listings := listings st; orders := orders st;
     cart := cart st; session := s |}.

Definition set_users {num} (us : list User) (st : Store num) : Store num :=
  {| users := us; listings := listings st; orders := orders st;
     cart := cart st; session := session st |}.

Definition set_listings {num} (ls : list (Listing num)) (st : Store num)
    : Store num :=
  {| users := users st; listings := ls; orders := orders st;
     cart := cart st; session := session st |}.

Definition set_orders {num} (os : list (Order num)) (st : Store num)
    : Store num :=
  {| users := users st; listings := listings st; orders := os;
     cart := cart st; session := session st |}.

Definition set_cart {num} (c : list (CartItem num)) (st : Store num)
    : Store num :=
  {| users := users st; listings := listings st; orders := orders st;
     cart := c; session := session st |}.

Definition listing_set_status {num} (s : string) (l : Listing num)
    : Listing num :=
  {| listing_id := listing_id l;
     listing_businessId := listing_businessId l;
     listing_businessName := listing_businessName l;
     listing_foodName := listing_foodName l;
     listing_category := listing_category l;
     listing_description := listing_description l;
     listing_originalPrice := listing_originalPrice l;
     listing_discountedPrice := listing_discountedPrice l;
     listing_quantity := listing_quantity l;
     listing_expiryDate := listing_expiryDate l;
     listing_imageUrl := listing_imageUrl l;
     listing_pickupOnly := listing_pickupOnly l;
     listing_pickupAddress := listing_pickupAddress l;
     listing_status := s;
     listing_createdAt := listing_createdAt l;
     listing_updatedAt := listing_updatedAt l |}.

Definition listing_set_quantity {num} (q : Z) (l : Listing num)
    : Listing num :=
  {| listing_id := listing_id l;
     listing_businessId := listing_businessId l;
     listing_businessName := listing_businessName l;
     listing_foodName := listing_foodName l;
     listing_category := listing_category l;
     listing_description := listing_description l;
     listing_originalPrice := listing_originalPrice l;
     listing_discountedPrice := listing_discountedPrice l;
     listing_quantity := q;
     listing_expiryDate := listing_expiryDate l;
     listing_imageUrl := listing_imageUrl l;
     listing_pickupOnly := listing_pickupOnly l;
     listing_pickupAddress := listing_pickupAddress l;
     listing_status := listing_status l;
     listing_createdAt := listing_createdAt l;
     listing_updatedAt := listing_updatedAt l |}.

Definition item_set_quantity {num} (q : Z) (i : CartItem num) : CartItem num :=
  {| item_id := item_id i;
     item_businessId := item_businessId i;
     item_businessName := item_businessName i;
     item_name := item_name i;
     item_originalPrice := item_originalPrice i;
     item_discountedPrice := item_discountedPrice i;
     item_quantity := q;
     item_imageUrl := item_imageUrl i;
     item_expiryDate := item_expiryDate i;
     item_pickupOnly := item_pickupOnly i;
     item_pickupAddress := item_pickupAddress i |}.

(** [order.status = status; order.updatedAt = new Date().toISOString()]. *)
Definition order_set_status {num} (s : string) (now : Z) (o : Order num)
    : Order num :=
  {| order_id := order_id o;
     order_userId := order_userId o;
     order_userName := order_userName o;
     order_userEmail := order_userEmail o;
     order_items := order_items o;
     order_data := order_data o;
     order_subtotal := order_subtotal o;
     order_savings := order_savings o;
     order_tax := order_tax o;
     order_total := order_total o;
     order_status := s;
     order_createdAt := order_createdAt o;
     order_updatedAt := Some now |}.

(** [users[userIndex].status = status; users[userIndex].updatedAt = ...]. *)
Definition user_set_status (s : string) (now : Z) (u : User) : User :=
  {| user_id := user_id u;
     user_name := user_name u;
     user_email := user_email u;
     user_role := user_role u;
     user_password := user_password u;
     user_createdAt := user_createdAt u;
     user_status := s;
     user_updatedAt := Some now;
     user_business := user_business u |}.

(** ** AuthService *)

Section AuthService.
Context {num : Type}.
(** [String.prototype.toLowerCase], left abstract. *)
Variable toLowerCase : string -> string.

(** [new User(id, name, email, role, password)]. *)
Definition new_User (now : Z) (id name email role password : string) : User :=
  {| user_id := id;
     user_name := name;
     user_email := email;
     user_role := role;
     user_password := password;
     user_createdAt := now;
     user_status := "active";
     user_updatedAt := None;
     user_business :=
       if String.eqb role "business"
       then Some {| businessName := ""; businessType := "";
                    businessAddress := ""; businessDescription := "" |}
       else None |}.

(** [new Session(userId, userEmail, userName, userRole)]: it expires seven
    days after its creation. *)
Definition new_Session (now : Z) (u : User) : Session :=
  {| session_userId := user_id u;
     session_userEmail := user_email u;
     session_userName := user_name u;
     session_userRole := user_role u;
     session_createdAt := now;
     session_expiresAt := now + 7 * 24 * 60 * 60 * 1000 |}.

(** [logout()]: removes the session key (navigation and redirection are
    presentation). *)
Definition logout (st : Store num) : Store num := set_session None st.

(** [getSession()]: an expired session is cleared by the read. *)
Definition getSession (now : Z) (st : Store num)
    : option Session * Store num :=
  match session st with
  | None => (None, st)
  | Some s =>
      if session_expiresAt s <=? now then (None, logout st) else (Some s, st)
  end.

(** [getCurrentUser()]. *)
Definition getCurrentUser (now : Z) (st : Store num)
    : option User * Store num :=
  match getSession now st with
  | (None, st') => (None, st')
  | (Some s, st') =>
      (List.find (fun u => String.eqb (user_id u) (session_userId s))
         (users st'), st')
  end.

(** The [users.find] of [login] and [register]: the first user whose email
    equals the given one up to letter case. *)
Definition find_by_email (email : string) (us : list User) : option User :=
  List.find
    (fun u => String.eqb (toLowerCase (user_email u)) (toLowerCase email)) us.

(** The [userData] argument of [register]. *)
Record RegisterData := {
  reg_name : string;
  reg_email : string;
  reg_password : string;
  reg_role : string;
  reg_businessName : option string;
  reg_businessType : option string
}.

(** [register(userData)]. *)
Definition register (userData : RegisterData) (now : Z) (newId : string)
    (st : Store num) : Result string * Store num :=
  if negb (truthy (reg_name userData)) || negb (truthy (reg_email userData))
     || negb (truthy (reg_password userData))
     || negb (truthy (reg_role userData))
  then (Failure "All fields are required", st)
  else
    match find_by_email (reg_email userData) (users st) with
    | Some _ => (Failure "Email is already registered", st)
    | None =>
        let u0 := new_User now newId (reg_name userData)
                    (reg_email userData) (reg_role userData)
                    (reg_password userData) in
        let newUser :=
          if String.eqb (reg_role userData) "business"
             && truthy_opt (reg_businessName userData)
          then
            {| user_id := user_id u0; user_name := user_name u0;
               user_email := user_email u0; user_role := user_role u0;
               user_password := user_password u0;
               user_createdAt := user_createdAt u0;
               user_status := user_status u0;
               user_updatedAt := user_updatedAt u0;
               user_business :=
                 Some {| businessName :=
                           default "" (reg_businessName userData);
                         businessType :=
                           if truthy_opt (reg_businessType userData)
                           then default "" (reg_businessType userData)
                           else "other";
                         businessAddress := "";
                         businessDescription := "" |} |}
          else u0 in
        (Success "Registration successful!",
         set_session (Some (new_Session now newUser))
           (set_users (users st ++ [newUser]) st))
    end.

(** [login(email, password)]. *)
Definition login (email password : string) (now : Z) (st : Store num)
    : Result string * Store num :=
  if negb (truthy email) || negb (truthy password)
  then (Failure "Email and password are required", st)
  else
    match find_by_email email (users st) with
    | None => (Failure "Invalid email or password", st)
    | Some user =>
        if negb (String.eqb (user_password user) password)
        then (Failure "Invalid email or password", st)
        else if String.eqb (user_status user) "blocked"
        then (Failure
                "Your account has been blocked. Please contact support.", st)
        else (Success "Login successful!",
              set_session (Some (new_Session now user)) st)
    end.
End AuthService.

(** ** ApiService *)

Section ApiService.
Context {num : Type} `{!JSNumber num}.

(** *** Listings *)

(** The [listings.map] of [getListings]: an active listing whose expiry date
    has passed becomes expired. *)
Definition expire (now : Z) (l : Listing num) : Listing num :=
  if isExpired now (listing_expiryDate l)
     && String.eqb (listing_status l) "active"
  then listing_set_status "expired" l
  else l.

(** [getListings(filters)]: the refreshed array is written back before any
    filter is applied; filtering, sorting and truncation then act on the
    local array only and decide the returned view. The embedding returns the
    array as it is with the default [filters = {}]. *)
Definition getListings (now : Z) (st : Store num)
    : list (Listing num) * Store num :=
  let ls := map (expire now) (listings st) in
  (ls, set_listings ls st).

(** [getListingById(id)]. *)
Definition getListingById (id : string) (st : Store num)
    : option (Listing num) :=
  List.find (fun l => String.eqb (listing_id l) id) (listings st).

(** *** Cart *)

(** [getCart()]. *)
Definition getCart (st : Store num) : list (CartItem num) := cart st.

(** [addToCart(item)]. The quantities are added as integers, which is what
    the program's doubles do while the sums stay within the safe integers. *)
Definition addToCart (item : CartItem num) (st : Store num)
    : list (CartItem num) * Store num :=
  let c :=
    match findIndex (fun i => String.eqb (item_id i) (item_id item)) (cart st)
    with
    | Some existingItemIndex =>
        alter (fun i => item_set_quantity (item_quantity i + item_quantity item) i)
          existingItemIndex (cart st)
    | None => cart st ++ [item]
    end in
  (c, set_cart c st).

(** [updateCartItemQuantity(itemId, quantity)]. *)
Definition updateCartItemQuantity (itemId : string) (quantity : Z)
    (st : Store num) : list (CartItem num) * Store num :=
  let c :=
    match findIndex (fun i => String.eqb (item_id i) itemId) (cart st) with
    | Some itemIndex =>
        if quantity <=? 0 then delete itemIndex (cart st)
        else alter (item_set_quantity quantity) itemIndex (cart st)
    | None => cart st
    end in
  (c, set_cart c st).

(** [removeFromCart(itemId)]. *)
Definition removeFromCart (itemId : string) (st : Store num)
    : list (CartItem num) * Store num :=
  let c := List.filter (fun i => negb (String.eqb (item_id i) itemId)) (cart st) in
  (c, set_cart c st).

(** [clearCart()]. *)
Definition clearCart (st : Store num) : list (CartItem num) * Store num :=
  ([], set_cart [] st).

(** *** Orders *)

(** The [filters] object of [getOrders]; an absent property is [None]. *)
Record OrderFilters := {
  filter_userId : option string;
  filter_businessId : option string;
  filter_status : option string
}.

(** [order.items.some((item) => item.businessId === businessId)]. *)
Definition has_item_of (businessId : string) (o : Order num) : bool :=
  existsb (fun item => String.eqb (item_businessId item) businessId)
    (order_items o).

(** [getOrders(filters)]; [None] is a falsy [filters] argument. *)
Definition getOrders (filters : option OrderFilters) (st : Store num)
    : list (Order num) :=
  match filters with
  | None => orders st
  | Some f =>
      let os := orders st in
      let os :=
        if truthy_opt (filter_userId f)
        then List.filter
               (fun o => String.eqb (order_userId o)
                           (default "" (filter_userId f))) os
        else os in
      let os :=
        if truthy_opt (filter_businessId f)
        then List.filter (has_item_of (default "" (filter_businessId f))) os
        else os in
      let os :=
        if truthy_opt (filter_status f)
           && negb (String.eqb (default "" (filter_status f)) "all")
        then List.filter
               (fun o => String.eqb (order_status o)
                           (default "" (filter_status f))) os
        else os in
      sort_desc order_createdAt os
  end.

(** [getOrderById(id)]. *)
Definition getOrderById (id : string) (st : Store num) : option (Order num) :=
  List.find (fun o => String.eqb (order_id o) id) (orders st).

(** The four [cart.items.reduce] calls of [createOrder], each a left fold
    from [0]. *)
Definition order_subtotal_of (items : list (CartItem num)) : num :=
  fold_left
    (fun total item =>
       num_add total
         (num_mul (item_discountedPrice item) (num_of_Z (item_quantity item))))
    items num_zero.

Definition order_savings_of (items : list (CartItem num)) : num :=
  fold_left
    (fun total item =>
       num_add total
         (num_mul
            (num_sub (item_originalPrice item) (item_discountedPrice item))
            (num_of_Z (item_quantity item))))
    items num_zero.

Definition order_tax_of (items : list (CartItem num)) : num :=
  fold_left
    (fun total item =>
       num_add total
         (num_mul
            (num_mul (item_discountedPrice item)
               (num_of_Z (item_quantity item)))
            lit_0_08))
    items num_zero.

Definition order_total_of (items : list (CartItem num)) : num :=
  fold_left
    (fun total item =>
       num_add total
         (num_mul
            (num_mul (item_discountedPrice item)
               (num_of_Z (item_quantity item)))
            lit_1_08))
    items num_zero.

(** One round of the [cart.items.forEach] of [createOrder]: the first
    listing with the item's id loses the purchased quantity and is marked
    sold out when nothing is left; an item with no such listing changes
    nothing. *)
Definition purchase (ls : list (Listing num)) (item : CartItem num)
    : list (Listing num) :=
  match findIndex (fun l => String.eqb (listing_id l) (item_id item)) ls with
  | Some listingIndex =>
      alter
        (fun l =>
           let l' :=
             listing_set_quantity (listing_quantity l - item_quantity item) l in
           if listing_quantity l' <=? 0
           then listing_set_status "sold-out" l'
           else l')
        listingIndex ls
  | None => ls
  end.

(** [createOrder(orderData)]. *)
Definition createOrder (orderData : OrderData) (now : Z) (newId : string)
    (st : Store num) : Result (Order num) * Store num :=
  match getCurrentUser now st with
  | (None, st) =>
      (Failure "Unauthorized: Please log in to place an order", st)
  | (Some currentUser, st) =>
      match cart st with
      | [] => (Failure "Cart is empty", st)
      | items =>
          let newOrder :=
            {| order_id := newId;
               order_userId := user_id currentUser;
               order_userName := user_name currentUser;
               order_userEmail := user_email currentUser;
               order_items := items;
               order_data := orderData;
               order_subtotal := order_subtotal_of items;
               order_savings := order_savings_of items;
               order_tax := order_tax_of items;
               order_total := order_total_of items;
               order_status := "pending";
               order_createdAt := now;
               order_updatedAt := None |} in
          (Success newOrder,
           set_cart []
             (set_listings (fold_left purchase items (listings st))
                (set_orders (orders st ++ [newOrder]) st)))
      end
  end.

(** [updateOrderStatus(id, status)]. *)
Definition updateOrderStatus (id status : string) (now : Z) (st : Store num)
    : Result (Order num) * Store num :=
  match getCurrentUser now st with
  | (None, st) =>
      (Failure "Unauthorized: Only businesses can update orders", st)
  | (Some currentUser, st) =>
      if negb (String.eqb (user_role currentUser) "business")
         && negb (String.eqb (user_role currentUser) "admin")
      then (Failure "Unauthorized: Only businesses can update orders", st)
      else
        match findIndex (fun o => String.eqb (order_id o) id) (orders st) with
        | None => (Failure "Order not found", st)
        | Some orderIndex =>
            match orders st !! orderIndex with
            | None => (* no such case: the index comes from [findIndex] *)
                (Failure "Order not found", st)
            | Some order =>
                if String.eqb (user_role currentUser) "business"
                   && negb (has_item_of (user_id currentUser) order)
                then (Failure
                        "Unauthorized: You can only update orders for your listings",
                      st)
                else
                  let order' := order_set_status status now order in
                  (Success order',
                   set_orders (<[orderIndex := order']> (orders st)) st)
            end
        end
  end.

(** *** Users *)

(** [updateUserStatus(id, status)]. *)
Definition updateUserStatus (id status : string) (now : Z) (st : Store num)
    : Result string * Store num :=
  match getCurrentUser now st with
  | (None, st) =>
      (Failure "Unauthorized: Only admins can update user status", st)
  | (Some currentUser, st) =>
      if negb (String.eqb (user_role currentUser) "admin")
      then (Failure "Unauthorized: Only admins can update user status", st)
      else
        match findIndex (fun u => String.eqb (user_id u) id) (users st) with
        | None => (Failure "User not found", st)
        | Some userIndex =>
            if String.eqb id (user_id currentUser)
            then (Failure "You cannot block your own account", st)
            else
              (Success
                 (if String.eqb status "blocked"
                  then "User blocked successfully"
                  else "User activated successfully"),
               set_users (alter (user_set_status status now) userIndex (users st))
                 st)
        end
  end.
End ApiService.

(** ** CartService and ListingService: the callers of the API *)

Module CartService.
Section CartService.
Context {num : Type} `{!JSNumber num}.

(** The selected [.pickup-option] element of the checkout modal. *)
Record PickupOption := {
  option_businessId : string;
  option_name : string;
  option_address : string
}.

(** What [submitCheckoutForm] reads from the form and the page.
    [form_pickupTime] is [new Date(formData.get("pickupTime"))]; [None] is
    the invalid date, on which [toISOString] throws. *)
Record CheckoutForm := {
  form_name : string;
  form_email : string;
  form_phone : string;
  form_pickupTime : option Z;
  form_notes : string;
  form_selected : option PickupOption
}.

(** How [submitCheckoutForm] ends: an error notification and no return
    value ([createOrder] is not called), [true] with the confirmed order, or
    [false] with the error shown. *)
Inductive CheckoutOutcome :=
  | CheckoutRejected (notification : string)
  | CheckoutPlaced (order : Order num)
  | CheckoutFailed (notification : string).

(** [CartService.submitCheckoutForm(form)]. The stored [pickupTime] is an
    ISO string and never falsy. [now] is the clock reading of the form's own
    check of the pickup time; the embedding runs [createOrder] at the same
    reading, whereas in the program its timer fires at least 500 ms later:
    what is stated of a placed order through this function holds for a
    clock that has not moved in between. *)
Definition submitCheckoutForm (form : CheckoutForm) (now : Z) (newId : string)
    (st : Store num) : CheckoutOutcome * Store num :=
  match form_selected form with
  | None => (CheckoutRejected "Please select a pickup location", st)
  | Some selectedPickupOption =>
      match form_pickupTime form with
      | None => (CheckoutFailed "Error processing your order", st)
      | Some t =>
          let orderData :=
            {| customerName := form_name form;
               customerEmail := form_email form;
               customerPhone := form_phone form;
               pickupTime := t;
               notes := form_notes form;
               pickupLocationId := option_businessId selectedPickupOption;
               pickupLocationName := option_name selectedPickupOption;
               pickupAddress := option_address selectedPickupOption |} in
          if negb (truthy (customerName orderData))
             || negb (truthy (customerEmail orderData))
             || negb (truthy (customerPhone orderData))
          then (CheckoutRejected "Please fill in all required fields", st)
          else if pickupTime orderData <=? now
          then (CheckoutRejected "Pickup time must be in the future", st)
          else
            match createOrder orderData now newId st with
            | (Success order, st') => (CheckoutPlaced order, st')
            | (Failure message, st') =>
                (CheckoutFailed
                   (if truthy message then message else "Error placing order"),
                 st')
            end
      end
  end.

End CartService.
End CartService.
Import CartService.

Module ListingService.
Section ListingService.
Context {num : Type} `{!JSNumber num}.

(** [ListingService.addToCart(listingId, quantity)] of the listing pages:
    the notification it ends with ([Failure] for an error notification) and
    the store. A request above the stock is cut down to the stock. *)
Definition addToCart (listingId : string) (quantity : Z) (now : Z)
    (st : Store num) : Result string * Store num :=
  match getCurrentUser now st with
  | (None, st) => (Failure "Please log in to add items to your cart", st)
  | (Some currentUser, st) =>
      if negb (String.eqb (user_role currentUser) "customer")
      then (Failure "Only customers can add items to cart", st)
      else
        match getListingById listingId st with
        | None => (Failure "Listing not found", st)
        | Some listing =>
            if isExpired now (listing_expiryDate listing)
            then (Failure "This listing has expired", st)
            else if listing_quantity listing <=? 0
            then (Failure "This item is out of stock", st)
            else
              let quantity :=
                if listing_quantity listing <? quantity
                then listing_quantity listing else quantity in
              let cartItem :=
                {| item_id := listing_id listing;
                   item_businessId := listing_businessId listing;
                   item_businessName := listing_businessName listing;
                   item_name := listing_foodName listing;
                   item_originalPrice := listing_originalPrice listing;
                   item_discountedPrice := listing_discountedPrice listing;
                   item_quantity := quantity;
                   item_imageUrl := listing_imageUrl listing;
                   item_expiryDate := listing_expiryDate listing;
                   item_pickupOnly := listing_pickupOnly listing;
                   item_pickupAddress := listing_pickupAddress listing |} in
              (Success (listing_foodName listing ++ " added to cart")%string,
               snd (addToCart cartItem st))
        end
  end.
End ListingService.
End ListingService.

(** ** The remaining methods of the services *)

Section MoreAuthService.
Context {num : Type}.

(** [Session.isValid()]. *)
Definition isValid (now : Z) (s : Session) : bool :=
  now <? session_expiresAt s.

(** [AuthService.init()]: with no stored user the default administrator is
    created; the closing [updateNavigation()] reads the session, which
    clears an expired one. *)
Definition init (now : Z) (newId : string) (st : Store num) : Store num :=
  let st :=
    match users st with
    | [] =>
        set_users
          [new_User now newId "Admin User" "admin@savebite.com" "admin"
             "admin123"] st
    | _ => st
    end in
  snd (getSession now st).
End MoreAuthService.

Section MoreApiService.
Context {num : Type} `{!JSNumber num}.
Variable toLowerCase : string -> string.

(** The [listingData] object that [submitListingForm], the one caller of
    [createListing] and [updateListing], builds from the listing form. *)
Record ListingData := {
  data_foodName : string;
  data_category : string;
  data_originalPrice : num;
  data_discountedPrice : num;
  data_quantity : Z;
  data_expiryDate : Z;
  data_description : string;
  data_imageUrl : string;
  data_pickupOnly : bool;
  data_pickupAddress : string
}.

(** [currentUser.businessName || currentUser.name]. *)
Definition business_name_of (u : User) : string :=
  match user_business u with
  | Some b => if truthy (businessName b) then businessName b else user_name u
  | None => user_name u
  end.

(** [createListing(listingData)]. *)
Definition createListing (listingData : ListingData) (now : Z)
    (newId : string) (st : Store num) : Result (Listing num) * Store num :=
  match getCurrentUser now st with
  | (None, st) =>
      (Failure "Unauthorized: Only businesses can create listings", st)
  | (Some currentUser, st) =>
      if negb (String.eqb (user_role currentUser) "business")
         && negb (String.eqb (user_role currentUser) "admin")
      then (Failure "Unauthorized: Only businesses can create listings", st)
      else
        let newListing :=
          {| listing_id := newId;
             listing_businessId := user_id currentUser;
             listing_businessName := business_name_of currentUser;
             listing_foodName := data_foodName listingData;
             listing_category := data_category listingData;
             listing_description := data_description listingData;
             listing_originalPrice := data_originalPrice listingData;
             listing_discountedPrice := data_discountedPrice listingData;
             listing_quantity := data_quantity listingData;
             listing_expiryDate := data_expiryDate listingData;
             listing_imageUrl := data_imageUrl listingData;
             listing_pickupOnly := data_pickupOnly listingData;
             listing_pickupAddress := data_pickupAddress listingData;
             listing_status := "active";
             listing_createdAt := now;
             listing_updatedAt := None |} in
        (Success newListing, set_listings (listings st ++ [newListing]) st)
  end.

(** [{ ...listing, ...listingData, updatedAt: new Date().toISOString() }]. *)
Definition listing_merge (listingData : ListingData) (now : Z)
    (listing : Listing num) : Listing num :=
  {| listing_id := listing_id listing;
     listing_businessId := listing_businessId listing;
     listing_businessName := listing_businessName listing;
     listing_foodName := data_foodName listingData;
     listing_category := data_category listingData;
     listing_description := data_description listingData;
     listing_originalPrice := data_originalPrice listingData;
     listing_discountedPrice := data_discountedPrice listingData;
     listing_quantity := data_quantity listingData;
     listing_expiryDate := data_expiryDate listingData;
     listing_imageUrl := data_imageUrl listingData;
     listing_pickupOnly := data_pickupOnly listingData;
     listing_pickupAddress := data_pickupAddress listingData;
     listing_status := listing_status listing;
     listing_createdAt := listing_createdAt listing;
     listing_updatedAt := Some now |}.

(** [updateListing(id, listingData)]. *)
Definition updateListing (id : string) (listingData : ListingData) (now : Z)
    (st : Store num) : Result (Listing num) * Store num :=
  match getCurrentUser now st with
  | (None, st) =>
      (Failure "Unauthorized: Only businesses can update listings", st)
  | (Some currentUser, st) =>
      if negb (String.eqb (user_role currentUser) "business")
         && negb (String.eqb (user_role currentUser) "admin")
      then (Failure "Unauthorized: Only businesses can update listings", st)
      else
        match findIndex (fun l => String.eqb (listing_id l) id) (listings st)
        with
        | None => (Failure "Listing not found", st)
        | Some listingIndex =>
            match listings st !! listingIndex with
            | None => (* no such case: the index comes from [findIndex] *)
                (Failure "Listing not found", st)
            | Some listing =>
                if negb (String.eqb (user_role currentUser) "admin")
                   && negb (String.eqb (listing_businessId listing)
                              (user_id currentUser))
                then (Failure
                        "Unauthorized: You can only update your own listings",
                      st)
                else
                  let updatedListing := listing_merge listingData now listing in
                  (Success updatedListing,
                   set_listings
                     (<[listingIndex := updatedListing]> (listings st)) st)
            end
        end
  end.

(** [deleteListing(id)]. *)
Definition deleteListing (id : string) (now : Z) (st : Store num)
    : Result string * Store num :=
  match getCurrentUser now st with
  | (None, st) =>
      (Failure "Unauthorized: Only businesses can delete listings", st)
  | (Some currentUser, st) =>
      if negb (String.eqb (user_role currentUser) "business")
         && negb (String.eqb (user_role currentUser) "admin")
      then (Failure "Unauthorized: Only businesses can delete listings", st)
      else
        match findIndex (fun l => String.eqb (listing_id l) id) (listings st)
        with
        | None => (Failure "Listing not found", st)
        | Some listingIndex =>
            match listings st !! listingIndex with
            | None => (* no such case: the index comes from [findIndex] *)
                (Failure "Listing not found", st)
            | Some listing =>
                if negb (String.eqb (user_role currentUser) "admin")
                   && negb (String.eqb (listing_businessId listing)
                              (user_id currentUser))
                then (Failure
                        "Unauthorized: You can only delete your own listings",
                      st)
                else
                  (Success "Listing deleted successfully",
                   set_listings (delete listingIndex (listings st)) st)
            end
        end
  end.

(** [String.prototype.includes]. *)
Definition includes (s searchString : string) : bool :=
  match String.index 0 searchString s with
  | Some _ => true
  | None => false
  end.

(** The [filters] object of [getUsers]; an absent property is [None]. *)
Record UserFilters := {
  ufilter_role : option string;
  ufilter_status : option string;
  ufilter_search : option string
}.

(** The search predicate of [getUsers]. *)
Definition user_matches (searchTerm : string) (u : User) : bool :=
  includes (toLowerCase (user_name u)) searchTerm
  || includes (toLowerCase (user_email u)) searchTerm
  || match user_business u with
     | Some b =>
         truthy (businessName b)
         && includes (toLowerCase (businessName b)) searchTerm
     | None => false
     end.

(** [getUsers(filters)]; [None] is a falsy [filters] argument. *)
Definition getUsers (filters : option UserFilters) (now : Z) (st : Store num)
    : Result (list User) * Store num :=
  match getCurrentUser now st with
  | (None, st) => (Failure "Unauthorized: Only admins can view all users", st)
  | (Some currentUser, st) =>
      if negb (String.eqb (user_role currentUser) "admin")
      then (Failure "Unauthorized: Only admins can view all users", st)
      else
        match filters with
        | None => (Success (users st), st)
        | Some f =>
            let us := users st in
            let us :=
              if truthy_opt (ufilter_role f)
                 && negb (String.eqb (default "" (ufilter_role f)) "all")
              then List.filter
                     (fun u => String.eqb (user_role u)
                                 (default "" (ufilter_role f))) us
              else us in
            let us :=
              if truthy_opt (ufilter_status f)
                 && negb (String.eqb (default "" (ufilter_status f)) "all")
              then List.filter
                     (fun u => String.eqb (user_status u)
                                 (default "" (ufilter_status f))) us
              else us in
            let us :=
              if truthy_opt (ufilter_search f)
              then List.filter
                     (user_matches
                        (toLowerCase (default "" (ufilter_search f)))) us
              else us in
            (Success (sort_desc user_createdAt us), st)
        end
  end.

(** [getUserById(id)]. *)
Definition getUserById (id : string) (now : Z) (st : Store num)
    : Result User * Store num :=
  match getCurrentUser now st with
  | (None, st) =>
      (Failure "Unauthorized: You can only view your own profile", st)
  | (Some currentUser, st) =>
      if negb (String.eqb (user_role currentUser) "admin")
         && negb (String.eqb (user_id currentUser) id)
      then (Failure "Unauthorized: You can only view your own profile", st)
      else
        match List.find (fun u => String.eqb (user_id u) id) (users st) with
        | None => (Failure "User not found", st)
        | Some user => (Success user, st)
        end
  end.
End MoreApiService.

(** ** The cart page *)

Section CartPage.
Context {num : Type} `{!JSNumber num}.

(** The [totalItems] that both [updateCartCount] methods show in the
    navigation bar. *)
Definition totalItems (st : Store num) : Z :=
  fold_left (fun total item => total + item_quantity item) (cart st) 0.




(** The order summary that [showCheckoutModal] computes from the cart
    before the order is placed. *)
Record OrderSummary := {
  summary_subtotal : num;
  summary_savings : num;
  summary_tax : num;
  summary_total : num
}.

Definition checkout_summary (items : list (CartItem num)) : OrderSummary :=
  let subtotal :=
    fold_left
      (fun subtotal item =>
         num_add subtotal
           (num_mul (item_discountedPrice item)
              (num_of_Z (item_quantity item))))
      items num_zero in
  let savings :=
    fold_left
      (fun savings item =>
         num_add savings
           (num_mul
              (num_sub (item_originalPrice item) (item_discountedPrice item))
              (num_of_Z (item_quantity item))))
      items num_zero in
  let tax := num_mul subtotal lit_0_08 in
  let total := num_add subtotal tax in
  {| summary_subtotal := subtotal; summary_savings := savings;
     summary_tax := tax; summary_total := total |}.
End CartPage.

(** ** utils.js: relative times *)

Section Formatting.
(** [formatDate(date)], which prints in the en-US locale. *)
Variable formatDate : Z -> string.

(** The suffix [n > 1 ? "s" : ""]. *)
Definition plural (n : Z) : string := if 1 <? n then "s" else "".

(** [formatRelativeTime(date)]. *)
Definition formatRelativeTime (now date : Z) : string :=
  let diffInSeconds := (now - date) / 1000 in
  if diffInSeconds <? 60 then "just now"
  else
    let diffInMinutes := diffInSeconds / 60 in
    if diffInMinutes <? 60
    then pretty diffInMinutes +:+ " minute" +:+ plural diffInMinutes +:+ " ago"
    else
      let diffInHours := diffInMinutes / 60 in
      if diffInHours <? 24
      then pretty diffInHours +:+ " hour" +:+ plural diffInHours +:+ " ago"
      else
        let diffInDays := diffInHours / 24 in
        if diffInDays <? 7
        then pretty diffInDays +:+ " day" +:+ plural diffInDays +:+ " ago"
        else formatDate date.

(** [formatTimeUntilExpiry(date)]. *)
Definition formatTimeUntilExpiry (now date : Z) : string :=
  let diffInSeconds := (date - now) / 1000 in
  if diffInSeconds <? 0 then "Expired"
  else
    let diffInMinutes := diffInSeconds / 60 in
    if diffInMinutes <? 60
    then "Expires in " +:+ pretty diffInMinutes +:+ " minute"
         +:+ plural diffInMinutes
    else
      let diffInHours := diffInMinutes / 60 in
      if diffInHours <? 24
      then "Expires in " +:+ pretty diffInHours +:+ " hour"
           +:+ plural diffInHours
      else
        let diffInDays := diffInHours / 24 in
        "Expires in " +:+ pretty diffInDays +:+ " day" +:+ plural diffInDays.
End Formatting.

(** ** Vocabulary of the statements *)

(** The cart item refers to a listing that is in the catalog. *)
Definition in_catalog {num} (ls : list (Listing num)) (item : CartItem num)
    : bool :=
  existsb (fun l => String.eqb (listing_id l) (item_id item)) ls.

(** The caller that [authService.getCurrentUser()] resolves at [now]. *)
Definition caller {num} (now : Z) (st : Store num) : option User :=
  fst (getCurrentUser now st).

(** The data-model invariant of the catalog: no listing has a negative
    quantity. *)
Definition stock_ok {num} (ls : list (Listing num)) : Prop :=
  Forall (fun l => 0 <= listing_quantity l) ls.

(** Every cart item asks for no more than any listing it refers to holds. *)
Definition within_stock {num} (items : list (CartItem num))
    (ls : list (Listing num)) : Prop :=
  forall item l, item ∈ items -> l ∈ ls ->
    listing_id l = item_id item -> item_quantity item <= listing_quantity l.

(** A required field of the checkout form is missing, or the pickup time is
    no date or not in the future. *)
Definition incomplete (form : CheckoutForm) (now : Z) : Prop :=
  form_name form = "" \/ form_email form = "" \/ form_phone form = "" \/
  match form_pickupTime form with Some t => t <= now | None => True end.

(** The store after a series of catalog reads at the given clock readings. *)
Definition reads {num} (times : list Z) (st : Store num) : Store num :=
  fold_left (fun st t => snd (getListings t st)) times st.

(** The sum of [f] over a list, taken from left to right from zero in the
    arithmetic of the number model: the sum over no element is zero, and
    the sum over [l ++ [x]] is the sum over [l] plus [f x]. *)
Definition sum_left {num : Type} `{!JSNumber num} {A : Type} (f : A -> num)
    (l : list A) : num :=
  foldr (fun x acc => num_add acc (f x)) num_zero (rev l).

(** What one cart line costs, what it saves, and its share of the tax and
    of the total, as [createOrder] writes them. *)
Definition line_price {num : Type} `{!JSNumber num} (item : CartItem num)
    : num :=
  num_mul (item_discountedPrice item) (num_of_Z (item_quantity item)).

Definition line_saving {num : Type} `{!JSNumber num} (item : CartItem num)
    : num :=
  num_mul (num_sub (item_originalPrice item) (item_discountedPrice item))
    (num_of_Z (item_quantity item)).

Definition line_tax {num : Type} `{!JSNumber num} (item : CartItem num)
    : num :=
  num_mul (line_price item) lit_0_08.

Definition line_total {num : Type} `{!JSNumber num} (item : CartItem num)
    : num :=
  num_mul (line_price item) lit_1_08.

(** No user stored before [u] has [u]'s email, up to letter case: [u] is
    the user that a lookup by its email finds. *)
Definition first_with_email (toLowerCase : string -> string)
    (us : list User) (u : User) : Prop :=
  exists i, us !! i = Some u /\
    forall j v, (j < i)%nat -> us !! j = Some v ->
      toLowerCase (user_email v) <> toLowerCase (user_email u).

(** A non-negative JavaScript safe integer. *)
Definition safe_count (z : Z) : Prop := 0 <= z <= 9007199254740991.

(** The data-model invariant of the users: no two stored users share an
    email up to letter case ([register] refuses a second one). *)
Definition unique_emails (toLowerCase : string -> string) (us : list User)
    : Prop :=
  forall i j u v, us !! i = Some u -> us !! j = Some v ->
    toLowerCase (user_email u) = toLowerCase (user_email v) -> i = j.

(** Two stores hold the same users, listings, orders and cart (the session
    key may differ). *)
Definition same_data {num} (st st' : Store num) : Prop :=
  users st' = users st /\ listings st' = listings st /\
  orders st' = orders st /\ cart st' = cart st.

(** The caller may edit or delete the listing: an admin, or the business
    that owns it. *)
Definition may_manage {num} (u : User) (l : Listing num) : Prop :=
  user_role u = "admin" \/
  (user_role u = "business" /\ listing_businessId l = user_id u).

(** The cart holds at most one line per listing id. *)
Definition distinct_lines {num} (st : Store num) : Prop :=
  NoDup (map item_id (cart st)).

(** Newest first: no element is older than a later one. *)
Definition newest_first {A : Type} (key : A -> Z) (l : list A) : Prop :=
  StronglySorted (fun a b => key b <= key a) l.

(** Two listings agree on everything but the status. *)
Definition same_but_status {num} (l l' : Listing num) : Prop :=
  l' = listing_set_status (listing_status l') l.

(** ** Sample data

    A small store in the shape of the mock data of [createMockListings],
    on binary64 prices; the clock readings are millisecond time stamps. *)

Module Sample.
Definition t0 : Z := 1700000000000.
Definition day : Z := 24 * 60 * 60 * 1000.

Definition admin : User :=
  new_User t0 "u-admin" "Admin User" "admin@savebite.com" "admin" "admin123".

Definition cafe : User :=
  {| user_id := "u-cafe"; user_name := "Green Garden Cafe";
     user_email := "contact@greengarden.com"; user_role := "business";
     user_password := "cafe-pass"; user_createdAt := t0;
     user_status := "active"; user_updatedAt := None;
     user_business :=
       Some {| businessName := "Green Garden Cafe"; businessType := "cafe";
               businessAddress := "123 Main St, Anytown, USA";
               businessDescription := "" |} |}.

Definition bakery : User :=
  {| user_id := "u-bakery"; user_name := "Fresh Bakery";
     user_email := "info@freshbakery.com"; user_role := "business";
     user_password := "bakery-pass"; user_createdAt := t0;
     user_status := "active"; user_updatedAt := None;
     user_business :=
       Some {| businessName := "Fresh Bakery"; businessType := "bakery";
               businessAddress := "456 Oak Ave, Anytown, USA";
               businessDescription := "" |} |}.

Definition customer : User :=
  new_User t0 "u-sam" "Sam" "sam@example.com" "customer" "sam-pass".

Definition blocked_customer : User :=
  user_set_status "blocked" (t0 + 1) 
    (new_User t0 "u-kim" "Kim" "kim@example.com" "customer" "kim-pass").

Definition all_users : list User :=
  [admin; cafe; bakery; customer; blocked_customer].

(** A listing of the cafe; the prices, the stock and the expiry vary. *)
Definition salad {num} (original discounted : num) (quantity expiry : Z)
    : Listing num :=
  {| listing_id := "l-salad"; listing_businessId := "u-cafe";
     listing_businessName := "Green Garden Cafe";
     listing_foodName := "Vegetable Pasta Salad";
     listing_category := "meals";
     listing_description := "Fresh pasta salad with seasonal vegetables";
     listing_originalPrice := original;
     listing_discountedPrice := discounted;
     listing_quantity := quantity; listing_expiryDate := expiry;
     listing_imageUrl := ""; listing_pickupOnly := true;
     listing_pickupAddress := "123 Main St, Anytown, USA";
     listing_status := "active"; listing_createdAt := t0;
     listing_updatedAt := None |}.

(** A listing of the bakery. *)
Definition bread {num} (original discounted : num) (quantity expiry : Z)
    : Listing num :=
  {| listing_id := "l-bread"; listing_businessId := "u-bakery";
     listing_businessName := "Fresh Bakery";
     listing_foodName := "Sourdough Bread";
     listing_category := "bakery";
     listing_description := "Baked this morning";
     listing_originalPrice := original;
     listing_discountedPrice := discounted;
     listing_quantity := quantity; listing_expiryDate := expiry;
     listing_imageUrl := ""; listing_pickupOnly := true;
     listing_pickupAddress := "456 Oak Ave, Anytown, USA";
     listing_status := "active"; listing_createdAt := t0;
     listing_updatedAt := None |}.

(** The cart item the listing page builds from a listing. *)
Definition item_of {num} (l : Listing num) (quantity : Z) : CartItem num :=
  {| item_id := listing_id l; item_businessId := listing_businessId l;
     item_businessName := listing_businessName l;
     item_name := listing_foodName l;
     item_originalPrice := listing_originalPrice l;
     item_discountedPrice := listing_discountedPrice l;
     item_quantity := quantity; item_imageUrl := listing_imageUrl l;
     item_expiryDate := listing_expiryDate l;
     item_pickupOnly := listing_pickupOnly l;
     item_pickupAddress := listing_pickupAddress l |}.

Definition details : OrderData :=
  {| customerName := "Sam"; customerEmail := "sam@example.com";
     customerPhone := "555-0100"; pickupTime := t0 + day; notes := "";
     pickupLocationId := "u-cafe"; pickupLocationName := "Green Garden Cafe";
     pickupAddress := "123 Main St, Anytown, USA" |}.

(** The store of a browser in which [who] logged in at [t0]. *)
Definition store_of {num} (who : option User) (ls : list (Listing num))
    (os : list (Order num)) (c : list (CartItem num)) : Store num :=
  {| users := all_users; listings := ls; orders := os; cart := c;
     session := new_Session t0 <$> who |}.

Definition salad2 : Listing float := salad 12.99%float 7.99%float 2 (t0 + 2 * day).
Definition bread3 : Listing float := bread 6.5%float 3.25%float 3 (t0 + day).

(** Sam is logged in, with two salads in the cart; two are in stock. *)
Definition checkout_store : Store float :=
  store_of (Some customer) [bread3; salad2] [] [item_of salad2 2].

(** Sam is logged in with an empty cart; two salads are in stock. *)
Definition browsing_store : Store float :=
  store_of (Some customer) [salad2] [] [].

(** Order details with nothing filled in and a pickup time in the past. *)
Definition no_details : OrderData :=
  {| customerName := ""; customerEmail := ""; customerPhone := "";
     pickupTime := t0 - day; notes := ""; pickupLocationId := "";
     pickupLocationName := ""; pickupAddress := "" |}.

(** The checkout form with the name left empty. *)
Definition nameless_form : CheckoutForm :=
  {| form_name := ""; form_email := "sam@example.com";
     form_phone := "555-0100"; form_pickupTime := Some (t0 + day);
     form_notes := "";
     form_selected :=
       Some {| option_businessId := "u-cafe";
               option_name := "Green Garden Cafe";
               option_address := "123 Main St, Anytown, USA" |} |}.

(** Yesterday's salad is still marked active; the bread expires tomorrow. *)
Definition stale_store : Store float :=
  store_of None
    [salad 12.99%float 7.99%float 5 (t0 - day); bread3] [] [].

(** Sam checks out one salad at 7.99 and three fruit boxes at 9.99. *)
Definition fruit_box {num} (original discounted : num) : Listing num :=
  {| listing_id := "l-fruit"; listing_businessId := "u-bakery";
     listing_businessName := "Fresh Bakery";
     listing_foodName := "Organic Fruit Box";
     listing_category := "produce";
     listing_description := "A mix of seasonal organic fruits";
     listing_originalPrice := original;
     listing_discountedPrice := discounted;
     listing_quantity := 8; listing_expiryDate := t0 + 3 * day;
     listing_imageUrl := ""; listing_pickupOnly := true;
     listing_pickupAddress := "456 Oak Ave, Anytown, USA";
     listing_status := "active"; listing_createdAt := t0;
     listing_updatedAt := None |}.

Definition mixed_store : Store float :=
  store_of (Some customer)
    [salad2; fruit_box 15.99%float 9.99%float] []
    [item_of salad2 1; item_of (fruit_box 15.99%float 9.99%float) 3].

(** A stand-in for [toLowerCase] on strings that are lower case already. *)
Definition as_is (s : string) : string := s.

(** Nobody is logged in. *)
Definition signed_out_store : Store float := store_of None [salad2] [] [].

(** The administrator is logged in. *)
Definition admin_store : Store float := store_of (Some admin) [salad2] [] [].

(** Two stored orders: Sam's holds a salad of the cafe and a fruit box of
    the bakery, the later one only a fruit box. *)
Definition order_of (id : string) (placed : Z)
    (items : list (CartItem float)) : Order float :=
  {| order_id := id; order_userId := "u-sam"; order_userName := "Sam";
     order_userEmail := "sam@example.com"; order_items := items;
     order_data := details;
     order_subtotal := order_subtotal_of items;
     order_savings := order_savings_of items;
     order_tax := order_tax_of items;
     order_total := order_total_of items;
     order_status := "pending"; order_createdAt := placed;
     order_updatedAt := None |}.

Definition mixed_order : Order float :=
  order_of "o-1" (t0 + 1000)
    [item_of salad2 1; item_of (fruit_box 15.99%float 9.99%float) 3].

Definition fruit_order : Order float :=
  order_of "o-2" (t0 + 2000) [item_of (fruit_box 15.99%float 9.99%float) 1].

(** The cafe is logged in and both orders are stored. *)
Definition cafe_store : Store float :=
  store_of (Some cafe) [salad2] [mixed_order; fruit_order] [].

(** The [filters] object [{ businessId }]. *)
Definition by_business (businessId : string) : option OrderFilters :=
  Some {| filter_userId := None; filter_businessId := Some businessId;
          filter_status := None |}.
End Sample.

(** ** More sample data *)

Module Scenario.
Import Sample.

Definition now : Z := t0 + 60000.

(** Ana registers as a customer. *)
Definition ana : RegisterData :=
  {| reg_name := "Ana"; reg_email := "ana@example.com";
     reg_password := "ana-pass"; reg_role := "customer";
     reg_businessName := None; reg_businessType := None |}.

(** Somebody registers with Sam's email. *)
Definition sam_again : RegisterData :=
  {| reg_name := "Sam II"; reg_email := "sam@example.com";
     reg_password := "other"; reg_role := "customer";
     reg_businessName := None; reg_businessType := None |}.

(** The listing form, filled in for a soup. *)
Definition soup : @ListingData float :=
  {| data_foodName := "Tomato Soup"; data_category := "meals";
     data_originalPrice := 6.5%float; data_discountedPrice := 3.25%float;
     data_quantity := 4; data_expiryDate := t0 + day;
     data_description := "Made today"; data_imageUrl := "";
     data_pickupOnly := true;
     data_pickupAddress := "123 Main St, Anytown, USA" |}.

(** The checkout form, filled in. *)
Definition complete_form : CheckoutForm :=
  {| form_name := "Sam"; form_email := "sam@example.com";
     form_phone := "555-0100"; form_pickupTime := Some (t0 + day);
     form_notes := "";
     form_selected :=
       Some {| option_businessId := "u-cafe";
               option_name := "Green Garden Cafe";
               option_address := "123 Main St, Anytown, USA" |} |}.

(** The [filters] object [{ role }]. *)
Definition by_role (role : string) : option UserFilters :=
  Some {| ufilter_role := Some role; ufilter_status := None;
          ufilter_search := None |}.

(** A customer who has saved Kim's email and password as her own in the
    settings form, stored before Kim. *)
Definition twin : User :=
  new_User t0 "u-eve" "Eve" "kim@example.com" "customer" "kim-pass".

Definition twin_store : Store float :=
  {| users := twin :: all_users; listings := [salad2]; orders := [];
     cart := []; session := None |}.

(** A browser whose storage is empty. *)
Definition fresh_store : Store float :=
  {| users := []; listings := []; orders := []; cart := []; session := None |}.
End Scenario.

(** * Properties *)

(** ** Arrays *)

Section ArrayFacts.
Context {A : Type}.
Implicit Types (p : A -> bool) (l : list A).

Lemma findIndex_Some p l i :
  findIndex p l = Some i ->
  exists x, l !! i = Some x /\ p x = true /\
    forall j y, (j < i)%nat -> l !! j = Some y -> p y = false.
Proof.
  revert i. induction l as [|a l IH]; intros i; simpl; [discriminate|].
  destruct (p a) eqn:Hpa.
  - intros [= <-]. exists a. repeat split; auto. intros j y Hj. lia.
  - destruct (findIndex p l) as [k|] eqn:Hk; simpl; [|discriminate].
    intros [= <-]. destruct (IH k eq_refl) as (x & Hx & Hpx & Hlt).
    exists x. repeat split; auto.
    intros [|j] y Hj; simpl.
    + intros [= <-]. exact Hpa.
    + apply Hlt. lia.
Qed.

Lemma findIndex_None p l :
  findIndex p l = None <-> forall x, x ∈ l -> p x = false.
Proof.
  induction l as [|a l IH]; simpl.
  - split; [|done]. intros _ x Hx. by apply elem_of_nil in Hx.
  - destruct (p a) eqn:Hpa.
    + split; [discriminate|]. intros H. specialize (H a (list_elem_of_here _ _)).
      congruence.
    + destruct (findIndex p l) as [k|]; simpl.
      * split; [discriminate|]. intros H.
        assert (Some k = None) as Hk; [|discriminate].
        apply IH. intros x Hx. apply H. by apply list_elem_of_further.
      * split; [|done]. intros _ x Hx.
        apply elem_of_cons in Hx as [->|Hx]; [done|]. by apply IH.
Qed.

Lemma findIndex_find p l x :
  List.find p l = Some x ->
  exists i, findIndex p l = Some i /\ l !! i = Some x.
Proof.
  induction l as [|a l IH]; simpl; [discriminate|].
  destruct (p a).
  - intros [= <-]. by exists 0%nat.
  - intros H. destruct (IH H) as (i & -> & Hi). by exists (S i).
Qed.

Lemma find_Some_elem p l x :
  List.find p l = Some x -> x ∈ l /\ p x = true.
Proof.
  intros H. apply find_some in H as [Hin Hp]. split; [|done].
  by apply list_elem_of_In.
Qed.
End ArrayFacts.

(** ** Sessions *)

Section SessionFacts.
Context {num : Type}.
Implicit Types (st : Store num) (u : User).

(** Reading the session changes nothing but the session key. *)
Lemma getSession_frame now st :
  users (snd (getSession now st)) = users st /\
  listings (snd (getSession now st)) = listings st /\
  orders (snd (getSession now st)) = orders st /\
  cart (snd (getSession now st)) = cart st.
Proof.
  unfold getSession. destruct (session st) as [s|]; [|done].
  by destruct (session_expiresAt s <=? now).
Qed.

Lemma getCurrentUser_frame now st :
  users (snd (getCurrentUser now st)) = users st /\
  listings (snd (getCurrentUser now st)) = listings st /\
  orders (snd (getCurrentUser now st)) = orders st /\
  cart (snd (getCurrentUser now st)) = cart st.
Proof.
  unfold getCurrentUser. pose proof (getSession_frame now st) as H.
  by destruct (getSession now st) as [[s|] st'].
Qed.

(** A caller that is resolved leaves the store as it was, and is the first
    stored user with the session's id. *)
Lemma getCurrentUser_Some now st u :
  fst (getCurrentUser now st) = Some u ->
  getCurrentUser now st = (Some u, st) /\
  exists s, session st = Some s /\ now < session_expiresAt s /\
    List.find (fun v => String.eqb (user_id v) (session_userId s)) (users st)
    = Some u.
Proof.
  unfold getCurrentUser, getSession.
  destruct (session st) as [s|] eqn:Hs; [|discriminate].
  destruct (session_expiresAt s <=? now) eqn:Hexp; [discriminate|].
  simpl. intros Hu. rewrite Hu. split; [done|].
  exists s. repeat split; auto. lia.
Qed.
End SessionFacts.

(** ** Placing an order *)

Section OrderFacts.
Context {num : Type} `{!JSNumber num}.
Implicit Types (st : Store num) (ls : list (Listing num))
  (item : CartItem num) (items : list (CartItem num)).

Lemma findIndex_existsb {A} (p : A -> bool) (l : list A) :
  findIndex p l = None <-> existsb p l = false.
Proof.
  induction l as [|a l IH]; simpl; [done|].
  destruct (p a); simpl; [split; discriminate|].
  destruct (findIndex p l); simpl.
  - split; [discriminate|]. intros H. apply IH in H. discriminate.
  - split; [|done]. intros _. by apply IH.
Qed.

Lemma alter_at {A} (f : A -> A) (l : list A) i x :
  l !! i = Some x -> alter f i l = <[i := f x]> l.
Proof.
  revert i. induction l as [|a l IH]; intros [|i]; simpl; try discriminate.
  - by intros [= ->].
  - intros H. f_equal. by apply IH.
Qed.

Lemma alter_keeps {A B} (g : A -> B) (f : A -> A) (l : list A) i :
  (forall x, g (f x) = g x) -> map g (alter f i l) = map g l.
Proof.
  intros Hg. revert i. induction l as [|a l IH]; intros [|i]; simpl; auto.
  - by rewrite Hg.
  - f_equal. apply IH.
Qed.

(** A purchase keeps the listings' ids, in their order. *)
Lemma purchase_ids ls item :
  map listing_id (purchase ls item) = map listing_id ls.
Proof.
  unfold purchase. destruct (findIndex _ ls); [|done].
  apply alter_keeps. intros l. simpl.
  by destruct (listing_quantity l - item_quantity item <=? 0).
Qed.

Lemma in_catalog_ids ls ls' item :
  map listing_id ls = map listing_id ls' ->
  in_catalog ls item = in_catalog ls' item.
Proof.
  unfold in_catalog. revert ls'.
  induction ls as [|l ls IH]; intros [|l' ls']; simpl; try discriminate; auto.
  intros [= Hid Hrest]. rewrite Hid. f_equal. by apply IH.
Qed.

(** An item whose listing is gone changes no listing. *)
Lemma purchase_missing ls item :
  in_catalog ls item = false -> purchase ls item = ls.
Proof.
  unfold in_catalog, purchase. intros H. apply findIndex_existsb in H.
  by rewrite H.
Qed.

(** The listings after a checkout are those obtained from the items that
    still have a listing: the others are skipped. *)
Lemma purchase_skips_missing items ls :
  fold_left purchase items ls
  = fold_left purchase (List.filter (in_catalog ls) items) ls.
Proof.
  revert ls. induction items as [|item items IH]; intros ls; simpl; [done|].
  destruct (in_catalog ls item) eqn:Hin; simpl.
  - rewrite IH. f_equal. apply filter_ext. intros it.
    apply in_catalog_ids, purchase_ids.
  - rewrite purchase_missing by done. apply IH.
Qed.

(** Buying the whole remaining stock of a listing. *)
Lemma purchase_all ls item idx l :
  findIndex (fun l => String.eqb (listing_id l) (item_id item)) ls = Some idx ->
  ls !! idx = Some l ->
  listing_quantity l = item_quantity item ->
  purchase ls item
  = <[idx := listing_set_status "sold-out" (listing_set_quantity 0 l)]> ls.
Proof.
  intros Hidx Hl Hq. unfold purchase. rewrite Hidx.
  rewrite (alter_at _ _ _ _ Hl). f_equal. simpl.
  rewrite Hq, Z.sub_diag. reflexivity.
Qed.

(** With a resolved caller and a cart that is not empty, [createOrder]
    succeeds and leaves exactly this store. *)
Lemma createOrder_success orderData now newId st u :
  caller now st = Some u -> cart st <> [] ->
  createOrder orderData now newId st =
    (let newOrder :=
       {| order_id := newId; order_userId := user_id u;
          order_userName := user_name u; order_userEmail := user_email u;
          order_items := cart st; order_data := orderData;
          order_subtotal := order_subtotal_of (cart st);
          order_savings := order_savings_of (cart st);
          order_tax := order_tax_of (cart st);
          order_total := order_total_of (cart st);
          order_status := "pending"; order_createdAt := now;
          order_updatedAt := None |} in
     (Success newOrder,
      set_cart []
        (set_listings (fold_left purchase (cart st) (listings st))
           (set_orders (orders st ++ [newOrder]) st)))).
Proof.
  intros Hu Hcart. apply getCurrentUser_Some in Hu as [Hu _].
  unfold createOrder. rewrite Hu.
  destruct (cart st) as [|item items] eqn:Hc; [done|]. reflexivity.
Qed.

(** C1. For an authenticated caller with a non-empty cart, [createOrder]
    succeeds and empties the cart; the listings it leaves are those
    obtained from the cart items that still have a listing, so an item whose
    listing is no longer in the catalog is skipped silently. In particular,
    when the cart holds exactly one item of quantity 2 whose listing exists
    with quantity 2, that listing ends with quantity 0 and status sold-out
    and no other listing changes. *)
Theorem createOrder_sells_out orderData now newId st u :
  caller now st = Some u ->
  cart st <> [] ->
  exists order st',
    createOrder orderData now newId st = (Success order, st') /\
    cart st' = [] /\
    listings st'
    = fold_left purchase (List.filter (in_catalog (listings st)) (cart st))
        (listings st) /\
    forall item idx l,
      cart st = [item] -> item_quantity item = 2 ->
      findIndex (fun l => String.eqb (listing_id l) (item_id item))
        (listings st) = Some idx ->
      listings st !! idx = Some l -> listing_quantity l = 2 ->
      exists l',
        listings st' = <[idx := l']> (listings st) /\
        listings st' !! idx = Some l' /\
        listing_quantity l' = 0 /\ listing_status l' = "sold-out" /\
        listing_id l' = listing_id l.
Proof.
  intros Hu Hcart. eexists _, _. split.
  { apply createOrder_success; eassumption. }
  simpl. split; [done|]. split; [apply purchase_skips_missing|].
  intros item idx l Hc Hq Hidx Hl Hlq.
  exists (listing_set_status "sold-out" (listing_set_quantity 0 l)).
  rewrite Hc. simpl.
  rewrite (purchase_all _ _ _ _ Hidx Hl) by congruence.
  repeat split; auto.
  apply list_lookup_insert_eq. by eapply lookup_lt_Some.
Qed.
End OrderFacts.

Lemma createOrder_sells_out_witness :
  caller (Sample.t0 + 60000) Sample.checkout_store = Some Sample.customer /\
  exists order st',
    createOrder Sample.details (Sample.t0 + 60000) "o-1" Sample.checkout_store
    = (Success order, st') /\
    cart st' = [] /\
    exists l', listings st' !! 1%nat = Some l' /\
      listing_quantity l' = 0 /\ listing_status l' = "sold-out".
Proof.
  split; [reflexivity|].
  destruct (createOrder_sells_out Sample.details (Sample.t0 + 60000) "o-1"
              Sample.checkout_store Sample.customer eq_refl)
    as (order & st' & Hrun & Hcart & _ & Hsold); [discriminate|].
  destruct (Hsold (Sample.item_of Sample.salad2 2) 1%nat Sample.salad2
              eq_refl eq_refl eq_refl eq_refl eq_refl)
    as (l' & _ & Hl' & Hq & Hs & _).
  exists order, st'. repeat split; auto. exists l'. auto.
Defined.

(** ** Listing quantities *)

Section StockFacts.
Context {num : Type} `{!JSNumber num}.
Implicit Types (st : Store num) (ls : list (Listing num))
  (item : CartItem num) (items : list (CartItem num)).

(** The cart methods never touch the catalog. *)
Lemma addToCart_listings item st :
  listings (snd (addToCart item st)) = listings st.
Proof. reflexivity. Qed.

Lemma updateCartItemQuantity_listings itemId quantity st :
  listings (snd (updateCartItemQuantity itemId quantity st)) = listings st.
Proof. reflexivity. Qed.

(** [addToCart] keeps one cart line per listing id. *)
Lemma addToCart_NoDup item st :
  NoDup (map item_id (cart st)) ->
  NoDup (map item_id (cart (snd (addToCart item st)))).
Proof.
  intros Hnd. unfold addToCart. simpl.
  destruct (findIndex _ (cart st)) as [i|] eqn:Hi.
  - by rewrite alter_keeps.
  - rewrite map_app. simpl. apply NoDup_app. split; [done|].
    split; [|apply NoDup_singleton].
    intros id Hid Hid'. apply list_elem_of_singleton in Hid' as ->.
    apply (list_elem_of_fmap (B := string)) in Hid as (it & Heq & Hit).
    apply (proj1 (findIndex_None _ _) Hi) in Hit.
    apply String.eqb_neq in Hit. by apply Hit.
Qed.

(** A listing after a purchase is an untouched one, or the image of a
    listing with the item's id, lowered by the item's quantity. *)
Lemma purchase_elem ls item l' :
  l' ∈ purchase ls item ->
  l' ∈ ls \/
  exists l, l ∈ ls /\ listing_id l = item_id item /\
    listing_id l' = listing_id l /\
    listing_quantity l' = listing_quantity l - item_quantity item.
Proof.
  unfold purchase.
  destruct (findIndex _ ls) as [i|] eqn:Hi; [|by left].
  apply findIndex_Some in Hi as (l & Hl & Hid & _).
  apply String.eqb_eq in Hid.
  intros Hin. apply list_elem_of_lookup in Hin as [j Hj].
  destruct (decide (i = j)) as [<-|Hne].
  - rewrite list_lookup_alter_eq, Hl in Hj. simpl in Hj.
    right. exists l. split; [by eapply list_elem_of_lookup_2|].
    split; [done|].
    destruct (listing_quantity l - item_quantity item <=? 0);
      injection Hj as <-; done.
  - rewrite list_lookup_alter_ne in Hj by done.
    left. by eapply list_elem_of_lookup_2.
Qed.

(** When no cart line exceeds the stock and the cart has one line per
    listing, a checkout keeps every quantity non-negative. *)
Lemma checkout_within_stock items ls :
  NoDup (map item_id items) -> within_stock items ls -> stock_ok ls ->
  stock_ok (fold_left purchase items ls).
Proof.
  revert ls. induction items as [|item items IH]; intros ls Hnd Hin Hok;
    simpl; [done|].
  apply NoDup_cons in Hnd as [Hfresh Hnd].
  apply IH; [done| |].
  - intros it l' Hit Hl' Hid.
    apply purchase_elem in Hl' as [Hl'|(l & Hl & Hlid & Hid' & _)].
    + apply Hin; auto. by apply list_elem_of_further.
    + exfalso. apply Hfresh. apply list_elem_of_fmap.
      exists it. split; [congruence|done].
  - apply Forall_forall. intros l' Hl'.
    apply purchase_elem in Hl' as [Hl'|(l & Hl & Hlid & _ & Hq)].
    + by eapply (proj1 (Forall_forall _ _) Hok).
    + rewrite Hq. specialize (Hin item l (list_elem_of_here _ _) Hl Hlid). lia.
Qed.

End StockFacts.

(** C2 (the code breaks the invariant). Sam adds two salads twice from the
    listing page while two are in stock: each request passes the stock check
    of the page, [addToCart] adds the second request to the cart line
    without a check, and the checkout takes four from a stock of two. The
    catalog starts with every quantity non-negative and ends with the
    salad at quantity -2. *)
Theorem createOrder_negative_stock :
  let now := Sample.t0 + 60000 in
  let st0 := Sample.browsing_store in
  let st1 := snd (ListingService.addToCart "l-salad" 2 now st0) in
  let st2 := snd (ListingService.addToCart "l-salad" 2 now st1) in
  let st3 := snd (createOrder Sample.details now "o-1" st2) in
  stock_ok (listings st0) /\
  success (fst (ListingService.addToCart "l-salad" 2 now st0)) = true /\
  success (fst (ListingService.addToCart "l-salad" 2 now st1)) = true /\
  map item_quantity (cart st2) = [4] /\
  success (fst (createOrder Sample.details now "o-1" st2)) = true /\
  map listing_quantity (listings st3) = [-2] /\
  map listing_status (listings st3) = ["sold-out"] /\
  ~ stock_ok (listings st3).
Proof.
  repeat split; try reflexivity.
  - repeat constructor. discriminate.
  - intros H. apply Forall_cons in H as [H _]. by apply H.
Qed.

(** ** Validation at checkout *)

Section CheckoutFacts.
Context {num : Type} `{!JSNumber num}.
Implicit Types (st : Store num) (form : CheckoutForm) (orderData : OrderData).

Lemma truthy_empty s : s = "" -> truthy s = false.
Proof. by intros ->. Qed.

(** An incomplete form never reaches [createOrder]: the store is untouched. *)
Lemma submitCheckoutForm_incomplete form now newId st :
  incomplete form now ->
  exists outcome,
    submitCheckoutForm form now newId st = (outcome, st) /\
    forall order, outcome <> CheckoutPlaced order.
Proof.
  intros Hinc. unfold submitCheckoutForm, incomplete in *.
  destruct (form_selected form) as [sel|]; [|by eexists].
  destruct (form_pickupTime form) as [t|]; [|by eexists]. simpl.
  destruct (negb (truthy (form_name form)) || negb (truthy (form_email form))
            || negb (truthy (form_phone form))) eqn:Hreq; [by eexists|].
  destruct (t <=? now) eqn:Ht; [by eexists|]. exfalso.
  apply orb_false_iff in Hreq as [Hreq Hphone].
  apply orb_false_iff in Hreq as [Hname Hemail].
  destruct Hinc as [H|[H|[H|H]]].
  - by rewrite (truthy_empty _ H) in Hname.
  - by rewrite (truthy_empty _ H) in Hemail.
  - by rewrite (truthy_empty _ H) in Hphone.
  - lia.
Qed.

(** [createOrder] fails for exactly two reasons, none of them about the
    order details. *)
Lemma createOrder_fails_iff orderData now newId st :
  success (fst (createOrder orderData now newId st)) = false <->
  caller now st = None \/ cart st = [].
Proof.
  destruct (caller now st) as [u|] eqn:Hu.
  - destruct (cart st) as [|item items] eqn:Hc.
    + apply getCurrentUser_Some in Hu as [Hu _].
      unfold createOrder. rewrite Hu, Hc. simpl. by split; [right|].
    + rewrite (createOrder_success _ _ _ _ u) by (done || by rewrite Hc).
      simpl. split; [discriminate|]. by intros [|].
  - unfold caller in Hu. unfold createOrder.
    destruct (getCurrentUser now st) as [[u|] st']; [discriminate|].
    simpl. by split; [left|].
Qed.

(** A failed [createOrder] creates no order and changes no listing. *)
Lemma createOrder_failure_frame orderData now newId st :
  success (fst (createOrder orderData now newId st)) = false ->
  orders (snd (createOrder orderData now newId st)) = orders st /\
  listings (snd (createOrder orderData now newId st)) = listings st /\
  cart (snd (createOrder orderData now newId st)) = cart st /\
  users (snd (createOrder orderData now newId st)) = users st.
Proof.
  unfold createOrder. pose proof (getCurrentUser_frame now st) as Hfr.
  destruct (getCurrentUser now st) as [[u|] st']; simpl in *;
    destruct Hfr as (Hus & Hls & Hos & Hc); [|by intros _].
  destruct (cart st') as [|item items] eqn:Hc'; simpl; [|discriminate].
  intros _. repeat split; congruence.
Qed.

(** C3 (amended). The required-field and pickup-time checks belong to the
    checkout form handler: on an incomplete form [submitCheckoutForm]
    ends without calling [createOrder] and leaves the store as it was, so no
    order is created and no listing quantity changes. [createOrder] itself
    reports failure exactly when no caller is authenticated or the cart is
    empty, whatever the order details are, and a failed [createOrder]
    creates no order and changes no listing. *)
Theorem checkout_validation form orderData now newId st :
  (incomplete form now ->
   exists outcome,
     submitCheckoutForm form now newId st = (outcome, st) /\
     forall order, outcome <> CheckoutPlaced order) /\
  (success (fst (createOrder orderData now newId st)) = false <->
   caller now st = None \/ cart st = []) /\
  (success (fst (createOrder orderData now newId st)) = false ->
   orders (snd (createOrder orderData now newId st)) = orders st /\
   listings (snd (createOrder orderData now newId st)) = listings st).
Proof.
  split; [apply submitCheckoutForm_incomplete|].
  split; [apply createOrder_fails_iff|].
  intros Hfail. by destruct (createOrder_failure_frame _ _ _ _ Hfail) as (? & ? & _).
Qed.
End CheckoutFacts.

(** C3 as stated fails: with every required field empty and a pickup time
    in the past, [createOrder] succeeds, stores an order and takes the two
    salads out of the catalog. *)
Lemma createOrder_validation_counterexample :
  let now := Sample.t0 + 60000 in
  let result := createOrder Sample.no_details now "o-1" Sample.checkout_store in
  customerName Sample.no_details = "" /\
  customerEmail Sample.no_details = "" /\
  customerPhone Sample.no_details = "" /\
  pickupTime Sample.no_details <= now /\
  success (fst result) = true /\
  length (orders (snd result)) = S (length (orders Sample.checkout_store)) /\
  map listing_quantity (listings Sample.checkout_store) = [3; 2] /\
  map listing_quantity (listings (snd result)) = [3; 0].
Proof. repeat split; try reflexivity. discriminate. Qed.

Lemma checkout_validation_witness :
  incomplete Sample.nameless_form (Sample.t0 + 60000) /\
  (exists outcome,
     submitCheckoutForm Sample.nameless_form (Sample.t0 + 60000) "o-1"
       Sample.checkout_store = (outcome, Sample.checkout_store) /\
     forall order, outcome <> CheckoutPlaced order) /\
  orders (snd (createOrder Sample.details (Sample.t0 + 60000) "o-1"
                 (logout Sample.checkout_store)))
  = orders Sample.checkout_store.
Proof.
  pose proof (checkout_validation Sample.nameless_form Sample.details
                (Sample.t0 + 60000) "o-1" Sample.checkout_store) as [Hform _].
  pose proof (checkout_validation Sample.nameless_form Sample.details
                (Sample.t0 + 60000) "o-1" (logout Sample.checkout_store))
    as (_ & _ & Hframe).
  split; [by left|]. split; [apply Hform; by left|].
  apply Hframe. reflexivity.
Defined.

(** ** Lazy expiry of listings *)

Section ExpiryFacts.
Context {num : Type} `{!JSNumber num}.
Implicit Types (st : Store num) (l : Listing num).

(** A listing that is not active is left alone by the expiry pass. *)
Lemma expire_not_active now l :
  listing_status l <> "active" -> expire now l = l.
Proof.
  intros Hs. unfold expire.
  apply String.eqb_neq in Hs. rewrite Hs. by rewrite andb_false_r.
Qed.

(** The expiry pass at a clock reading not later than an earlier pass finds
    nothing left to do. *)
Lemma expire_expire now now' l :
  now' <= now -> expire now' (expire now l) = expire now l.
Proof.
  intros Hle.
  destruct (isExpired now (listing_expiryDate l)
            && String.eqb (listing_status l) "active") eqn:Hc.
  - assert (expire now l = listing_set_status "expired" l) as ->.
    { unfold expire. by rewrite Hc. }
    by apply expire_not_active.
  - assert (expire now l = l) as ->.
    { unfold expire. by rewrite Hc. }
    unfold expire.
    destruct (isExpired now' (listing_expiryDate l)
              && String.eqb (listing_status l) "active") eqn:Hc'; [|done].
    apply andb_true_iff in Hc' as [Hexp Hact].
    rewrite Hact, andb_true_r in Hc. unfold isExpired in *. lia.
Qed.

Lemma getListings_again now now' st :
  now' <= now ->
  getListings now' (snd (getListings now st))
  = (listings (snd (getListings now st)), snd (getListings now st)).
Proof.
  intros Hle. unfold getListings. simpl.
  assert (map (expire now') (map (expire now) (listings st))
          = map (expire now) (listings st)) as ->; [|done].
  rewrite map_map. apply map_ext. intros l. by apply expire_expire.
Qed.

(** A listing that is not active, an expired one in particular, is left as
    it is by any series of reads. *)
Lemma reads_keep_inactive times st i l :
  listings st !! i = Some l -> listing_status l <> "active" ->
  listings (reads times st) !! i = Some l.
Proof.
  revert st. induction times as [|t times IH]; intros st Hl Hs; simpl; [done|].
  apply IH; [|done]. simpl.
  change (map (expire t) (listings st) !! i) with ((expire t <$> listings st) !! i).
  rewrite list_lookup_fmap, Hl. simpl.
  by rewrite expire_not_active.
Qed.

(** After a read at [now], a listing still stored as active has not passed
    its expiry date at [now]. *)
Lemma expire_active now l :
  listing_status (expire now l) = "active" ->
  expire now l = l /\ now <= listing_expiryDate l.
Proof.
  unfold expire, isExpired.
  destruct (listing_expiryDate l <? now) eqn:Hexp; simpl.
  - destruct (String.eqb (listing_status l) "active") eqn:Hact; simpl.
    + discriminate.
    + intros Hs. apply String.eqb_neq in Hact. contradiction.
  - intros _. split; [done|]. apply Z.ltb_ge in Hexp. lia.
Qed.

(** C4 (amended). If listing [L] is stored as active with an expiry date
    before the clock reading of a [getListings] call, the call persists it
    as expired (and returns the persisted array). [L] is still expired
    after any series of later reads, whatever their clock readings, and so
    is every listing that the call left with a status other than active. A
    second read of the resulting store at the same clock reading (or at any
    reading not after it) leaves the whole store, hence every listing
    status, unchanged. A second read at a later reading [now'] runs the
    expiry pass again: it changes the status of exactly the listings still
    stored as active whose expiry date lies in [[now, now')], to expired,
    and leaves the others as they are. *)
Theorem getListings_expiry_idempotent now st i L :
  listings st !! i = Some L ->
  listing_status L = "active" ->
  listing_expiryDate L < now ->
  let st1 := snd (getListings now st) in
  fst (getListings now st) = listings st1 /\
  listings st1 !! i = Some (listing_set_status "expired" L) /\
  (forall times,
     listings (reads times st1) !! i = Some (listing_set_status "expired" L)) /\
  (forall times j l,
     listings st1 !! j = Some l -> listing_status l <> "active" ->
     listings (reads times st1) !! j = Some l) /\
  snd (getListings now st1) = st1 /\
  (forall now', now' <= now -> snd (getListings now' st1) = st1) /\
  (forall now' j l,
     listings st1 !! j = Some l ->
     exists l',
       listings (snd (getListings now' st1)) !! j = Some l' /\
       (listing_status l' <> listing_status l <->
        listing_status l = "active" /\
        now <= listing_expiryDate l < now') /\
       (listing_status l' <> listing_status l ->
        l' = listing_set_status "expired" l) /\
       (listing_status l' = listing_status l -> l' = l)).
Proof.
  intros HL Hact Hexp st1.
  assert (listings st1 !! i = Some (listing_set_status "expired" L)) as H1.
  { subst st1. simpl.
    change (map (expire now) (listings st) !! i)
      with ((expire now <$> listings st) !! i).
    rewrite list_lookup_fmap, HL. simpl. unfold expire, isExpired.
    rewrite Hact. simpl. by rewrite (proj2 (Z.ltb_lt _ _) Hexp). }
  split; [done|]. split; [done|]. split.
  { intros times. by apply reads_keep_inactive. }
  split.
  { intros times j l. apply reads_keep_inactive. }
  split.
  { subst st1. by rewrite getListings_again. }
  split.
  { intros now' Hle. subst st1. by rewrite getListings_again. }
  intros now' j l Hl. exists (expire now' l). split.
  { change (listings (snd (getListings now' st1)))
      with (expire now' <$> listings st1).
    by rewrite list_lookup_fmap, Hl. }
  assert (listing_status l = "active" -> now <= listing_expiryDate l) as Hnow.
  { change (listings st1) with (expire now <$> listings st) in Hl.
    rewrite list_lookup_fmap in Hl.
    destruct (listings st !! j) as [l0|]; [|discriminate].
    simpl in Hl. injection Hl as <-. intros Hs.
    destruct (expire_active now l0 Hs) as [-> Hle]. exact Hle. }
  unfold expire, isExpired.
  destruct (listing_expiryDate l <? now') eqn:Hlt; simpl.
  - destruct (String.eqb (listing_status l) "active") eqn:Hs; simpl.
    + apply String.eqb_eq in Hs. apply Z.ltb_lt in Hlt.
      repeat split; try done; try (by apply Hnow).
      * intros _. rewrite Hs. discriminate.
      * rewrite Hs. discriminate.
    + apply String.eqb_neq in Hs.
      repeat split; try done. by intros [? _].
  - apply Z.ltb_ge in Hlt.
    repeat split; try done. intros [_ ?]. lia.
Qed.
End ExpiryFacts.

(** C4 as stated fails for a second read at a later clock reading: the
    first read of the sample store expires yesterday's salad, and a second
    read two days later changes the status of the bread. *)
Lemma getListings_second_read_counterexample :
  let now := Sample.t0 + 60000 in
  let st1 := snd (getListings now Sample.stale_store) in
  let st2 := snd (getListings (now + 2 * Sample.day) st1) in
  map listing_status (listings Sample.stale_store) = ["active"; "active"] /\
  map listing_expiryDate (listings Sample.stale_store)
  = [Sample.t0 - Sample.day; Sample.t0 + Sample.day] /\
  map listing_status (listings st1) = ["expired"; "active"] /\
  map listing_status (listings st2) = ["expired"; "expired"] /\
  map listing_status (listings st2) <> map listing_status (listings st1).
Proof. repeat split; try reflexivity. discriminate. Qed.

Lemma getListings_expiry_idempotent_witness :
  let now := Sample.t0 + 60000 in
  let st1 := snd (getListings now Sample.stale_store) in
  map listing_status (listings Sample.stale_store) = ["active"; "active"] /\
  map listing_status (listings st1) = ["expired"; "active"] /\
  (listing_status <$> listings (reads [now + 2 * Sample.day] st1) !! 0%nat)
  = Some "expired" /\
  snd (getListings now st1) = st1.
Proof.
  intros now st1.
  destruct (getListings_expiry_idempotent now Sample.stale_store 0%nat
              (Sample.salad 12.99%float 7.99%float 5 (Sample.t0 - Sample.day))
              eq_refl eq_refl eq_refl)
    as (_ & _ & Hstay & _ & Hsame & _).
  split; [reflexivity|]. split; [reflexivity|].
  split; [|exact Hsame].
  unfold st1. by rewrite (Hstay [now + 2 * Sample.day]).
Defined.

(** ** Order totals *)

Section TotalsFacts.
Context {num : Type} `{!JSNumber num}.
Implicit Types (items : list (CartItem num)) (st : Store num).

Lemma sum_left_nil {A} (f : A -> num) : sum_left f [] = num_zero.
Proof. reflexivity. Qed.

Lemma sum_left_snoc {A} (f : A -> num) (l : list A) (x : A) :
  sum_left f (l ++ [x]) = num_add (sum_left f l) (f x).
Proof. unfold sum_left. by rewrite rev_unit. Qed.

(** A [reduce] that adds [f item] to the running total is the sum of [f]
    from left to right. *)
Lemma reduce_sum_left {A} (f : A -> num) (l : list A) :
  fold_left (fun total x => num_add total (f x)) l num_zero = sum_left f l.
Proof.
  induction l as [|x l IH] using rev_ind; [done|].
  by rewrite fold_left_app, sum_left_snoc, <- IH.
Qed.

(** C5 (amended). In every number model, binary64 included, an order that
    [createOrder] creates snapshots the cart, and over the snapshot its
    subtotal is the sum of discountedPrice×qty, its savings the sum of
    (originalPrice−discountedPrice)×qty, its tax the sum of
    discountedPrice×qty×0.08 and its total the sum of
    discountedPrice×qty×1.08, each sum taken from left to right from zero.
    Tax and total are sums of their own: neither is computed from the
    subtotal. *)
Theorem createOrder_totals orderData now newId st order st' :
  createOrder orderData now newId st = (Success order, st') ->
  order_items order = cart st /\
  order_subtotal order = sum_left line_price (order_items order) /\
  order_savings order = sum_left line_saving (order_items order) /\
  order_tax order = sum_left line_tax (order_items order) /\
  order_total order = sum_left line_total (order_items order).
Proof.
  intros Hrun.
  assert (success (fst (createOrder orderData now newId st)) = true) as Hok
    by by rewrite Hrun.
  destruct (caller now st) as [u|] eqn:Hu; cycle 1.
  { assert (success (fst (createOrder orderData now newId st)) = false) as Hno
      by (apply createOrder_fails_iff; by left).
    congruence. }
  destruct (decide (cart st = [])) as [Hc|Hc].
  { assert (success (fst (createOrder orderData now newId st)) = false) as Hno
      by (apply createOrder_fails_iff; by right).
    congruence. }
  rewrite (createOrder_success _ _ _ _ u Hu Hc) in Hrun.
  injection Hrun as <- <-. simpl.
  split; [done|].
  split; [exact (reduce_sum_left line_price (cart st))|].
  split; [exact (reduce_sum_left line_saving (cart st))|].
  split; [exact (reduce_sum_left line_tax (cart st))|].
  exact (reduce_sum_left line_total (cart st)).
Qed.
End TotalsFacts.

(** C5 as stated fails on the numbers the program runs on: for one salad at
    7.99 and three fruit boxes at 9.99 the stored tax is not 0.08 × subtotal
    and the stored total is not subtotal + tax. *)
Lemma createOrder_totals_counterexample :
  exists order st',
    createOrder Sample.details (Sample.t0 + 60000) "o-1" Sample.mixed_store
    = (Success order, st') /\
    order_subtotal order = 37.96%float /\
    order_tax order = 3.0368000000000004%float /\
    num_mul lit_0_08 (order_subtotal order) = 3.0368%float /\
    order_total order = 40.99680000000001%float /\
    num_add (order_subtotal order) (order_tax order) = 40.9968%float /\
    order_tax order <> num_mul lit_0_08 (order_subtotal order) /\
    order_total order <> num_add (order_subtotal order) (order_tax order).
Proof.
  eexists _, _. split; [reflexivity|].
  repeat split; try (vm_compute; reflexivity).
  - intros H. apply (f_equal Prim2SF) in H. vm_compute in H. discriminate.
  - intros H. apply (f_equal Prim2SF) in H. vm_compute in H. discriminate.
Qed.

Lemma createOrder_totals_witness :
  exists order st',
    createOrder Sample.details (Sample.t0 + 60000) "o-1" Sample.mixed_store
    = (Success order, st') /\
    order_subtotal order
    = sum_left line_price
        [Sample.item_of Sample.salad2 1;
         Sample.item_of (Sample.fruit_box 15.99%float 9.99%float) 3] /\
    order_tax order = (0 + 7.99 * 1 * 0.08 + 9.99 * 3 * 0.08)%float /\
    order_total order = (0 + 7.99 * 1 * 1.08 + 9.99 * 3 * 1.08)%float.
Proof.
  eexists _, _. split; [reflexivity|].
  destruct (createOrder_totals Sample.details (Sample.t0 + 60000) "o-1"
              Sample.mixed_store _ _ eq_refl)
    as (_ & Hsub & _ & Htax & Htotal).
  split; [exact Hsub|]. split.
  - rewrite Htax. reflexivity.
  - rewrite Htotal. reflexivity.
Defined.

(** ** Discount percentage *)





(** The percentage is the rounding of the computed double. The quotient of
    the two prices taken exactly can be on the other side of a half: for 8
    and the double after 3 the subtraction rounds to 5, the program computes
    62.5 and answers 63, while the exact quotient is below 62.5. *)
Lemma calculateDiscount_of_the_double :
  float_value 8%float = Some (4503599627370496 # 562949953421312) /\
  (4503599627370496 # 562949953421312 == inject_Z 8)%Q /\
  float_value 3.0000000000000004%float
  = Some (6755399441055745 # 2251799813685248) /\
  float_value ((8 - 3.0000000000000004) / 8 * 100)%float
  = Some (8796093022208000 # 140737488355328) /\
  (8796093022208000 # 140737488355328 == 125 # 2)%Q /\
  calculateDiscount 8%float 3.0000000000000004%float = Some 63 /\
  ((inject_Z 8 - (6755399441055745 # 2251799813685248)) / inject_Z 8
   * inject_Z 100 < 125 # 2)%Q.
Proof. repeat split; vm_compute; reflexivity. Qed.

(** ** Logging in *)

Section LoginFacts.
Context {num : Type}.
Variable toLowerCase : string -> string.
Implicit Types (st : Store num) (u : User).

(** With unique emails, looking a stored user up by its email finds it. *)
Lemma find_by_email_unique (us : list User) u :
  unique_emails toLowerCase us -> u ∈ us ->
  find_by_email toLowerCase (user_email u) us = Some u.
Proof.
  intros Huniq Hu. unfold find_by_email.
  apply list_elem_of_lookup in Hu as [j Hj].
  destruct (List.find _ us) as [v|] eqn:Hfind.
  - destruct (findIndex_find _ _ _ Hfind) as (i & _ & Hi).
    apply find_Some_elem in Hfind as [_ Hv]. apply String.eqb_eq in Hv.
    assert (i = j) as -> by (eapply Huniq; eauto). congruence.
  - exfalso. eapply find_none in Hfind.
    + rewrite String.eqb_refl in Hfind. discriminate.
    + apply list_elem_of_In. by eapply list_elem_of_lookup_2.
Qed.

(** X30. [register] keeps the emails unique: it is the only method of the
    service that adds a user, and it refuses an email that is taken. *)
Lemma register_unique_emails userData now newId st :
  unique_emails toLowerCase (users st) ->
  unique_emails toLowerCase
    (users (snd (register toLowerCase userData now newId st))).
Proof.
  intros Huniq. unfold register.
  destruct (negb (truthy (reg_name userData))
            || negb (truthy (reg_email userData))
            || negb (truthy (reg_password userData))
            || negb (truthy (reg_role userData))); [done|].
  destruct (find_by_email toLowerCase (reg_email userData) (users st))
    as [v|] eqn:Hfind; [done|].
  simpl.
  match goal with
  | |- unique_emails _ (_ ++ [?x]) => set (newUser := x)
  end.
  assert (user_email newUser = reg_email userData) as Hmail.
  { unfold newUser.
    by destruct (String.eqb (reg_role userData) "business"
                 && truthy_opt (reg_businessName userData)). }
  assert (forall k w, users st !! k = Some w ->
            toLowerCase (user_email w) <> toLowerCase (reg_email userData))
    as Hfresh.
  { intros k w Hk Heq. unfold find_by_email in Hfind.
    eapply find_none in Hfind.
    - apply String.eqb_neq in Hfind. by apply Hfind.
    - apply list_elem_of_In. by eapply list_elem_of_lookup_2. }
  intros i j u v Hi Hj Heq.
  apply lookup_snoc_Some in Hi as [[Hi Hu]|[Hi <-]];
    apply lookup_snoc_Some in Hj as [[Hj Hv]|[Hj <-]].
  - by eapply Huniq.
  - exfalso. rewrite Hmail in Heq. by eapply Hfresh.
  - exfalso. rewrite Hmail in Heq. symmetry in Heq. by eapply Hfresh.
  - congruence.
Qed.

(** A lookup by the email of a user finds that user when no earlier user
    has the email. *)
Lemma find_by_email_first (us : list User) u :
  first_with_email toLowerCase us u ->
  find_by_email toLowerCase (user_email u) us = Some u.
Proof.
  intros (i & Hi & Hbefore). unfold find_by_email.
  revert i Hi Hbefore. induction us as [|a us IH]; intros [|i] Hi Hbefore;
    try discriminate; simpl in *.
  - injection Hi as ->. by rewrite String.eqb_refl.
  - assert (toLowerCase (user_email a) <> toLowerCase (user_email u)) as Hne
      by (apply (Hbefore 0%nat a); [lia|done]).
    apply String.eqb_neq in Hne. rewrite Hne.
    apply (IH i Hi). intros j v Hj Hv. apply (Hbefore (S j) v); [lia|done].
Qed.

(** In a store with unique emails every stored user is the first with its
    email. *)
Lemma unique_emails_first (us : list User) u :
  unique_emails toLowerCase us -> u ∈ us -> first_with_email toLowerCase us u.
Proof.
  intros Huniq Hu. apply list_elem_of_lookup in Hu as [i Hi].
  exists i. split; [done|]. intros j v Hj Hv Heq.
  assert (j = i) by (eapply Huniq; eauto). lia.
Qed.

(** C7 (amended). [login] looks the email up and checks the first stored
    user that has it, up to letter case. So for a blocked user that no
    earlier stored user shares the email with (every blocked user of a
    store with unique emails is one), logging in with that user's email
    fails and leaves the store, hence the session key, as it was, whatever
    password is given; with that user's own password (both strings
    non-empty) the failure is the blocked-account message. *)
Theorem login_blocked now st u :
  first_with_email toLowerCase (users st) u ->
  user_status u = "blocked" ->
  (forall password,
     exists message,
       login toLowerCase (user_email u) password now st = (Failure message, st)) /\
  (user_email u <> "" -> user_password u <> "" ->
   login toLowerCase (user_email u) (user_password u) now st
   = (Failure "Your account has been blocked. Please contact support.", st)).
Proof.
  intros Hfirst Hblocked.
  pose proof (find_by_email_first _ _ Hfirst) as Hfind.
  split.
  - intros password. unfold login.
    destruct (negb (truthy (user_email u)) || negb (truthy password));
      [by eexists|].
    rewrite Hfind.
    destruct (negb (String.eqb (user_password u) password)); [by eexists|].
    rewrite Hblocked. simpl. by eexists.
  - intros Hemail Hpassword. unfold login, truthy.
    apply String.eqb_neq in Hemail, Hpassword. rewrite Hemail, Hpassword.
    simpl. rewrite Hfind, String.eqb_refl, Hblocked. reflexivity.
Qed.
End LoginFacts.

Lemma NoDup_unique_emails (toLowerCase : string -> string) (us : list User) :
  NoDup ((fun u => toLowerCase (user_email u)) <$> us) ->
  unique_emails toLowerCase us.
Proof.
  intros Hnd i j u v Hi Hj Heq.
  apply (proj1 (NoDup_alt _) Hnd i j (toLowerCase (user_email u)));
    rewrite list_lookup_fmap.
  - by rewrite Hi.
  - by rewrite Hj, Heq.
Qed.

Lemma sample_users_unique :
  unique_emails Sample.as_is Sample.all_users.
Proof.
  apply NoDup_unique_emails.
  apply (bool_decide_unpack _ (dec := NoDup_dec _)). by vm_compute.
Qed.

(** C7 as stated fails when an earlier user has the blocked user's email
    and password (the settings form stores any email): the login with the
    blocked user's credentials succeeds and opens a session, for the other
    user. *)
Lemma login_blocked_counterexample :
  Sample.blocked_customer ∈ users Scenario.twin_store /\
  user_status Sample.blocked_customer = "blocked" /\
  login Sample.as_is (user_email Sample.blocked_customer)
    (user_password Sample.blocked_customer) (Sample.t0 + 60000)
    Scenario.twin_store
  = (Success "Login successful!",
     set_session (Some (new_Session (Sample.t0 + 60000) Scenario.twin))
       Scenario.twin_store) /\
  session Scenario.twin_store = None /\
  session (snd (login Sample.as_is (user_email Sample.blocked_customer)
                  (user_password Sample.blocked_customer) (Sample.t0 + 60000)
                  Scenario.twin_store)) <> None.
Proof.
  split.
  { simpl. unfold Sample.all_users. do 5 apply list_elem_of_further.
    apply list_elem_of_here. }
  repeat split; discriminate.
Qed.

Lemma login_blocked_witness :
  first_with_email Sample.as_is (users Sample.signed_out_store)
    Sample.blocked_customer /\
  user_status Sample.blocked_customer = "blocked" /\
  login Sample.as_is "kim@example.com" "kim-pass" (Sample.t0 + 60000)
    Sample.signed_out_store
  = (Failure "Your account has been blocked. Please contact support.",
     Sample.signed_out_store) /\
  session (snd (login Sample.as_is "kim@example.com" "kim-pass"
                  (Sample.t0 + 60000) Sample.signed_out_store)) = None.
Proof.
  assert (first_with_email Sample.as_is (users Sample.signed_out_store)
            Sample.blocked_customer) as Hfirst.
  { apply unique_emails_first; [exact sample_users_unique|].
    simpl. unfold Sample.all_users. do 4 apply list_elem_of_further.
    apply list_elem_of_here. }
  pose proof (login_blocked Sample.as_is (Sample.t0 + 60000)
                Sample.signed_out_store Sample.blocked_customer
                Hfirst eq_refl) as [_ Hlogin].
  split; [exact Hfirst|]. split; [reflexivity|].
  assert (user_email Sample.blocked_customer <> "") as He by discriminate.
  assert (user_password Sample.blocked_customer <> "") as Hp by discriminate.
  specialize (Hlogin He Hp). simpl in Hlogin.
  split; [exact Hlogin|]. reflexivity.
Defined.

(** ** Changing a user's status *)

Section UserStatusFacts.
Context {num : Type} `{!JSNumber num}.
Implicit Types (st : Store num) (u : User).

(** C8. When the resolved caller is an admin and the target id is the
    caller's own id, [updateUserStatus] fails with the self-block message
    and leaves the store unchanged, whatever the new status is: the users,
    and so the caller's status, are as before. *)
Theorem updateUserStatus_self status now st u :
  caller now st = Some u ->
  user_role u = "admin" ->
  updateUserStatus (user_id u) status now st
  = (Failure "You cannot block your own account", st) /\
  success (fst (updateUserStatus (user_id u) status now st)) = false /\
  users (snd (updateUserStatus (user_id u) status now st)) = users st.
Proof.
  intros Hu Hrole.
  apply getCurrentUser_Some in Hu as (Hu & s & _ & _ & Hfind).
  assert (updateUserStatus (user_id u) status now st
          = (Failure "You cannot block your own account", st)) as Hrun.
  { unfold updateUserStatus. rewrite Hu, Hrole. simpl.
    destruct (findIndex (fun v => String.eqb (user_id v) (user_id u)) (users st))
      as [i|] eqn:Hidx.
    - by rewrite String.eqb_refl.
    - exfalso. apply find_Some_elem in Hfind as [Hin _].
      apply (proj1 (findIndex_None _ _) Hidx) in Hin.
      by rewrite String.eqb_refl in Hin. }
  by rewrite Hrun.
Qed.
End UserStatusFacts.

Lemma updateUserStatus_self_witness :
  caller (Sample.t0 + 60000) Sample.admin_store = Some Sample.admin /\
  user_role Sample.admin = "admin" /\
  updateUserStatus "u-admin" "blocked" (Sample.t0 + 60000) Sample.admin_store
  = (Failure "You cannot block your own account", Sample.admin_store).
Proof.
  split; [reflexivity|]. split; [reflexivity|].
  exact (proj1 (updateUserStatus_self "blocked" (Sample.t0 + 60000)
                  Sample.admin_store Sample.admin eq_refl eq_refl)).
Defined.

(** ** Changing an order's status *)

Section OrderStatusFacts.
Context {num : Type} `{!JSNumber num}.
Implicit Types (st : Store num) (order : Order num).

(** C9. A successful [updateOrderStatus] rewrites one stored order, the
    first with the given id: the new order differs from the old one in
    [status] and [updatedAt] only (id, purchaser, items, customer and pickup
    details, totals and [createdAt] are the old ones), every other position
    of the orders array holds the order it held, and nothing else in the
    store changes. *)
Theorem updateOrderStatus_frame id status now st order' st' :
  updateOrderStatus id status now st = (Success order', st') ->
  exists i order,
    orders st !! i = Some order /\ order_id order = id /\
    order' = order_set_status status now order /\
    (order_id order' = order_id order /\
     order_userId order' = order_userId order /\
     order_userName order' = order_userName order /\
     order_userEmail order' = order_userEmail order /\
     order_items order' = order_items order /\
     order_data order' = order_data order /\
     order_subtotal order' = order_subtotal order /\
     order_savings order' = order_savings order /\
     order_tax order' = order_tax order /\
     order_total order' = order_total order /\
     order_createdAt order' = order_createdAt order) /\
    order_status order' = status /\ order_updatedAt order' = Some now /\
    orders st' = <[i := order']> (orders st) /\
    length (orders st') = length (orders st) /\
    orders st' !! i = Some order' /\
    (forall j, j <> i -> orders st' !! j = orders st !! j) /\
    users st' = users st /\ listings st' = listings st /\
    cart st' = cart st /\ session st' = session st.
Proof.
  unfold updateOrderStatus.
  destruct (getCurrentUser now st) as [[u|] st0] eqn:Hu; [|discriminate].
  assert (fst (getCurrentUser now st) = Some u) as Hu' by by rewrite Hu.
  apply getCurrentUser_Some in Hu' as [Hu' _].
  assert (st0 = st) as -> by congruence.
  destruct (negb (String.eqb (user_role u) "business")
            && negb (String.eqb (user_role u) "admin")); [discriminate|].
  destruct (findIndex _ (orders st)) as [i|] eqn:Hi; [|discriminate].
  destruct (orders st !! i) as [order|] eqn:Ho; [|discriminate].
  destruct (String.eqb (user_role u) "business"
            && negb (has_item_of (user_id u) order)); [discriminate|].
  intros [= <- <-].
  apply findIndex_Some in Hi as (o & Ho' & Hid & _).
  assert (o = order) as -> by congruence. apply String.eqb_eq in Hid.
  exists i, order. simpl.
  assert (i < length (orders st))%nat as Hlt by by eapply lookup_lt_Some.
  repeat split; auto.
  - by rewrite length_insert.
  - by apply list_lookup_insert_eq.
  - intros j Hj. by apply list_lookup_insert_ne.
Qed.
End OrderStatusFacts.

Lemma updateOrderStatus_frame_witness :
  exists order' st',
    updateOrderStatus "o-1" "completed" (Sample.t0 + 60000) Sample.cafe_store
    = (Success order', st') /\
    order_items order' = order_items Sample.mixed_order /\
    order_total order' = order_total Sample.mixed_order /\
    orders st' !! 1%nat = Some Sample.fruit_order.
Proof.
  eexists _, _. split; [reflexivity|].
  destruct (updateOrderStatus_frame "o-1" "completed" (Sample.t0 + 60000)
              Sample.cafe_store _ _ eq_refl)
    as (i & order & Hi & _ & _ & _ & _ & _ & _ & _ & _ & _ & _).
  split; [reflexivity|]. split; reflexivity.
Defined.

(** ** Orders of a business *)

Section OrdersFacts.
Context {num : Type} `{!JSNumber num}.
Implicit Types (st : Store num) (o : Order num) (os : list (Order num)).

Lemma insert_desc_perm {A} (key : A -> Z) (x : A) (l : list A) :
  insert_desc key x l ≡ₚ x :: l.
Proof.
  induction l as [|y l IH]; simpl; [done|].
  destruct (key y <=? key x); [done|].
  rewrite IH. apply Permutation_swap.
Qed.

(** Sorting rearranges; it neither drops nor rewrites an element. *)
Lemma sort_desc_perm {A} (key : A -> Z) (l : list A) :
  sort_desc key l ≡ₚ l.
Proof.
  induction l as [|x l IH]; simpl; [done|].
  unfold sort_desc in *. simpl. rewrite insert_desc_perm. by rewrite IH.
Qed.

Lemma has_item_of_spec B o :
  has_item_of B o = true <->
  exists item, item ∈ order_items o /\ item_businessId item = B.
Proof.
  unfold has_item_of. rewrite existsb_exists. split.
  - intros (item & Hin & Heq). exists item.
    split; [by apply list_elem_of_In|by apply String.eqb_eq].
  - intros (item & Hin & Heq). exists item.
    split; [by apply list_elem_of_In|by apply String.eqb_eq].
Qed.

(** C10. For a business id [B] (a non-empty string, as every generated id
    is), [getOrders({ businessId: B })] returns the stored orders that have
    an item of [B], each once per occurrence in the store and each as it is
    stored, so with all of its items, those of other businesses included;
    the result is ordered by [createdAt], newest first. *)
Theorem getOrders_by_business B st :
  B <> "" ->
  let filters :=
    Some {| filter_userId := None; filter_businessId := Some B;
            filter_status := None |} in
  getOrders filters st
  = sort_desc order_createdAt (List.filter (has_item_of B) (orders st)) /\
  getOrders filters st ≡ₚ List.filter (has_item_of B) (orders st) /\
  (forall o,
     o ∈ getOrders filters st <->
     o ∈ orders st /\
     exists item, item ∈ order_items o /\ item_businessId item = B).
Proof.
  intros HB filters.
  assert (getOrders filters st
          = sort_desc order_createdAt (List.filter (has_item_of B) (orders st)))
    as Hrun.
  { unfold getOrders, filters, truthy_opt, truthy. simpl.
    apply String.eqb_neq in HB. by rewrite HB. }
  split; [done|]. rewrite Hrun.
  split; [apply sort_desc_perm|].
  intros o. rewrite sort_desc_perm.
  rewrite list_elem_of_In, filter_In, <- list_elem_of_In.
  by rewrite has_item_of_spec.
Qed.
End OrdersFacts.

Lemma getOrders_by_business_witness :
  "u-cafe" <> "" /\
  getOrders (Sample.by_business "u-cafe") Sample.cafe_store
  = [Sample.mixed_order] /\
  map item_businessId (order_items Sample.mixed_order) = ["u-cafe"; "u-bakery"] /\
  (Sample.fruit_order ∈ getOrders (Sample.by_business "u-cafe") Sample.cafe_store
   <-> Sample.fruit_order ∈ orders Sample.cafe_store /\
       exists item, item ∈ order_items Sample.fruit_order /\
         item_businessId item = "u-cafe").
Proof.
  assert ("u-cafe" <> "") as Hne by discriminate.
  destruct (getOrders_by_business "u-cafe" Sample.cafe_store Hne)
    as (_ & _ & Hmem).
  split; [exact Hne|]. split; [reflexivity|]. split; [reflexivity|].
  exact (Hmem Sample.fruit_order).
Defined.

(** * Further properties of the services *)

(** ** Registration, login and the session *)

Section AccountFacts.
Context {num : Type}.
Variable toLowerCase : string -> string.
Implicit Types (st : Store num) (u : User).

Lemma find_snoc {A} (p : A -> bool) (l : list A) (x : A) :
  List.find p (l ++ [x])
  = match List.find p l with
    | Some y => Some y
    | None => if p x then Some x else None
    end.
Proof.
  induction l as [|a l IH]; simpl; [done|]. by destruct (p a).
Qed.

Lemma find_elem {A} (p : A -> bool) (l : list A) (x : A) :
  x ∈ l -> p x = true -> exists y, List.find p l = Some y /\ p y = true.
Proof.
  intros Hx Hp. destruct (List.find p l) as [y|] eqn:Hfind.
  - exists y. split; [done|]. by apply find_Some_elem in Hfind as [_ ?].
  - exfalso. eapply find_none in Hfind; [|by apply list_elem_of_In].
    congruence.
Qed.

(** What a successful [register] did. *)
Lemma register_Success userData now newId st message st' :
  register toLowerCase userData now newId st = (Success message, st') ->
  truthy (reg_email userData) = true /\
  truthy (reg_password userData) = true /\
  find_by_email toLowerCase (reg_email userData) (users st) = None /\
  exists newUser,
    st' = set_session (Some (new_Session now newUser))
            (set_users (users st ++ [newUser]) st) /\
    user_id newUser = newId /\
    user_name newUser = reg_name userData /\
    user_email newUser = reg_email userData /\
    user_password newUser = reg_password userData /\
    user_role newUser = reg_role userData /\
    user_status newUser = "active".
Proof.
  unfold register.
  destruct (truthy (reg_name userData)); [|discriminate].
  destruct (truthy (reg_email userData)); [|discriminate].
  destruct (truthy (reg_password userData)); [|discriminate].
  destruct (truthy (reg_role userData)); [|discriminate]. simpl.
  destruct (find_by_email toLowerCase (reg_email userData) (users st));
    [discriminate|].
  intros [= _ <-]. repeat split; try done.
  eexists. split; [reflexivity|].
  by destruct (String.eqb (reg_role userData) "business"
               && truthy_opt (reg_businessName userData)).
Qed.

(** X1. A successful [register] appends one active user carrying the given
    id, name, email, password and role, and leaves a session for that user;
    from then on [login] with the registered email and password succeeds,
    at any time and whether or not the session is still there, and opens a
    session for the same user. *)
Theorem register_then_login userData now newId st message st' :
  register toLowerCase userData now newId st = (Success message, st') ->
  exists newUser,
    users st' = users st ++ [newUser] /\
    user_id newUser = newId /\
    user_email newUser = reg_email userData /\
    user_role newUser = reg_role userData /\
    user_status newUser = "active" /\
    session st' = Some (new_Session now newUser) /\
    forall now',
      login toLowerCase (reg_email userData) (reg_password userData) now' st'
      = (Success "Login successful!",
         set_session (Some (new_Session now' newUser)) st') /\
      login toLowerCase (reg_email userData) (reg_password userData) now'
        (logout st')
      = (Success "Login successful!",
         set_session (Some (new_Session now' newUser)) (logout st')).
Proof.
  intros Hreg.
  apply register_Success in Hreg
    as (Hemail & Hpass & Hfresh & newUser & -> & Hid & Hname & Hmail & Hpw
        & Hrole & Hactive).
  exists newUser. simpl. repeat split; try done.
  all: unfold login; rewrite Hemail, Hpass; simpl;
    unfold find_by_email in *; rewrite find_snoc, Hfresh, Hmail,
      String.eqb_refl, Hpw, String.eqb_refl, Hactive; reflexivity.
Qed.

(** X2. [register] refuses an email that a stored user already has, up to
    letter case, and then changes nothing. *)
Theorem register_duplicate_email userData now newId st u :
  u ∈ users st ->
  toLowerCase (user_email u) = toLowerCase (reg_email userData) ->
  success (fst (register toLowerCase userData now newId st)) = false /\
  snd (register toLowerCase userData now newId st) = st /\
  (truthy (reg_name userData) = true -> truthy (reg_email userData) = true ->
   truthy (reg_password userData) = true ->
   truthy (reg_role userData) = true ->
   fst (register toLowerCase userData now newId st)
   = Failure "Email is already registered").
Proof.
  intros Hu Heq.
  destruct (find_elem
              (fun v => String.eqb (toLowerCase (user_email v))
                          (toLowerCase (reg_email userData)))
              (users st) u Hu) as (v & Hfind & _).
  { rewrite Heq. apply String.eqb_refl. }
  unfold register, find_by_email. rewrite Hfind.
  destruct (negb (truthy (reg_name userData))
            || negb (truthy (reg_email userData))
            || negb (truthy (reg_password userData))
            || negb (truthy (reg_role userData))) eqn:Hmissing.
  - repeat split; try done. intros H1 H2 H3 H4.
    rewrite H1, H2, H3, H4 in Hmissing. discriminate.
  - done.
Qed.

(** What a successful [login] did. *)
Lemma login_Success email password now st message st' :
  login toLowerCase email password now st = (Success message, st') ->
  exists u,
    u ∈ users st /\
    toLowerCase (user_email u) = toLowerCase email /\
    user_password u = password /\ user_status u <> "blocked" /\
    st' = set_session (Some (new_Session now u)) st.
Proof.
  unfold login.
  destruct (negb (truthy email) || negb (truthy password)); [discriminate|].
  destruct (find_by_email toLowerCase email (users st)) as [u|] eqn:Hfind;
    [|discriminate].
  destruct (String.eqb (user_password u) password) eqn:Hpw; [|discriminate].
  destruct (String.eqb (user_status u) "blocked") eqn:Hst; [discriminate|].
  simpl. intros [= _ <-]. exists u.
  apply find_Some_elem in Hfind as [Hin Hmail].
  repeat split; auto.
  - by apply String.eqb_eq.
  - by apply String.eqb_eq.
  - by apply String.eqb_neq.
Qed.

(** X3. A session opened by [login] lasts seven days: before that every
    read resolves a stored user with the id of the one that logged in and
    leaves the store alone; from then on the read finds nobody, removes the
    session key, and nobody is resolved afterwards at any clock reading. *)
Theorem login_session_lifetime email password now st message st' :
  login toLowerCase email password now st = (Success message, st') ->
  exists u,
    u ∈ users st /\ session st' = Some (new_Session now u) /\
    (forall now', now' < now + 604800000 ->
       exists v, getCurrentUser now' st' = (Some v, st') /\
                 user_id v = user_id u) /\
    (forall now', now + 604800000 <= now' ->
       getCurrentUser now' st' = (None, logout st') /\
       forall now'', getCurrentUser now'' (logout st') = (None, logout st')).
Proof.
  intros Hlogin.
  apply login_Success in Hlogin as (u & Hin & _ & _ & _ & ->).
  exists u. split; [done|]. split; [done|]. split.
  - intros now' Hlt.
    destruct (find_elem (fun v => String.eqb (user_id v) (user_id u))
                (users st) u Hin (String.eqb_refl _)) as (v & Hfind & Hv).
    exists v. unfold getCurrentUser, getSession, new_Session. simpl.
    rewrite (proj2 (Z.leb_gt _ _)) by lia. simpl. rewrite Hfind.
    split; [done|]. by apply String.eqb_eq.
  - intros now' Hge. unfold getCurrentUser, getSession, new_Session. simpl.
    by rewrite (proj2 (Z.leb_le _ _)) by lia.
Qed.
End AccountFacts.

(** ** The authentication gate *)

Section GateFacts.
Context {num : Type} `{!JSNumber num}.
Variable toLowerCase : string -> string.
Implicit Types (st : Store num) (u : User).

Lemma caller_None now st :
  caller now st = None ->
  exists st0, getCurrentUser now st = (None, st0) /\ same_data st st0.
Proof.
  unfold caller. pose proof (getCurrentUser_frame now st) as Hfr.
  destruct (getCurrentUser now st) as [[u|] st0]; [discriminate|].
  intros _. exists st0. split; [done|]. unfold same_data. simpl in Hfr.
  tauto.
Qed.

(** X4. When no caller is resolved (no session, an expired one, or a
    session whose user is gone), every protected method of the API and the
    listing page's [addToCart] report failure and leave the users, the
    listings, the orders and the cart as they were. *)
Theorem unauthenticated_calls_fail now st :
  caller now st = None ->
  (forall orderData newId,
     success (fst (createOrder orderData now newId st)) = false /\
     same_data st (snd (createOrder orderData now newId st))) /\
  (forall listingData newId,
     success (fst (createListing listingData now newId st)) = false /\
     same_data st (snd (createListing listingData now newId st))) /\
  (forall id listingData,
     success (fst (updateListing id listingData now st)) = false /\
     same_data st (snd (updateListing id listingData now st))) /\
  (forall id,
     success (fst (deleteListing id now st)) = false /\
     same_data st (snd (deleteListing id now st))) /\
  (forall id status,
     success (fst (updateOrderStatus id status now st)) = false /\
     same_data st (snd (updateOrderStatus id status now st))) /\
  (forall id status,
     success (fst (updateUserStatus id status now st)) = false /\
     same_data st (snd (updateUserStatus id status now st))) /\
  (forall filters,
     success (fst (getUsers toLowerCase filters now st)) = false /\
     same_data st (snd (getUsers toLowerCase filters now st))) /\
  (forall id,
     success (fst (getUserById id now st)) = false /\
     same_data st (snd (getUserById id now st))) /\
  (forall listingId quantity,
     success (fst (ListingService.addToCart listingId quantity now st)) = false /\
     same_data st (snd (ListingService.addToCart listingId quantity now st))).
Proof.
  intros Hnone. destruct (caller_None _ _ Hnone) as (st0 & Hrun & Hsame).
  unfold createOrder, createListing, updateListing, deleteListing,
    updateOrderStatus, updateUserStatus, getUsers, getUserById,
    ListingService.addToCart.
  rewrite Hrun. simpl. repeat split; apply Hsame.
Qed.
End GateFacts.

(** ** Managing listings *)

Section ListingFacts.
Context {num : Type} `{!JSNumber num}.
Implicit Types (st : Store num) (u : User) (l : Listing num).

Lemma find_fresh {A} (p : A -> bool) (l : list A) :
  (forall x, x ∈ l -> p x = false) -> List.find p l = None.
Proof.
  intros H. destruct (List.find p l) as [x|] eqn:Hfind; [|done].
  apply find_Some_elem in Hfind as [Hin Hp]. rewrite (H x Hin) in Hp.
  discriminate.
Qed.


(** How a successful [updateListing] or [deleteListing] found its listing. *)
Lemma manage_lookup id st (i : nat) :
  findIndex (fun l => String.eqb (listing_id l) id) (listings st) = Some i ->
  exists old,
    listings st !! i = Some old /\ listing_id old = id /\
    getListingById id st = Some old /\ (i < length (listings st))%nat.
Proof.
  intros Hi. unfold getListingById.
  destruct (List.find _ (listings st)) as [l|] eqn:Hfind.
  - destruct (findIndex_find _ _ _ Hfind) as (j & Hj & Hl).
    assert (j = i) as -> by congruence.
    apply find_Some_elem in Hfind as [_ Hid]. apply String.eqb_eq in Hid.
    exists l. repeat split; auto. by eapply lookup_lt_Some.
  - exfalso. apply findIndex_Some in Hi as (x & Hx & Hp & _).
    eapply find_none in Hfind.
    + rewrite Hp in Hfind. discriminate.
    + apply list_elem_of_In. by eapply list_elem_of_lookup_2.
Qed.

Lemma may_manage_spec u l :
  negb (String.eqb (user_role u) "business")
  && negb (String.eqb (user_role u) "admin") = false ->
  negb (String.eqb (user_role u) "admin")
  && negb (String.eqb (listing_businessId l) (user_id u)) = false ->
  may_manage u l.
Proof.
  unfold may_manage.
  destruct (String.eqb (user_role u) "admin") eqn:Hadmin.
  - intros _ _. left. by apply String.eqb_eq.
  - destruct (String.eqb (user_role u) "business") eqn:Hbus; [|discriminate].
    destruct (String.eqb (listing_businessId l) (user_id u)) eqn:Hown;
      [|discriminate].
    intros _ _. right. split; by apply String.eqb_eq.
Qed.

(** X6. A successful [updateListing] was asked by an admin or by the owning
    business, and rewrites the first listing with the given id only: the
    form's ten fields and [updatedAt] are replaced, while the id, the owner,
    the owner's name, [createdAt] and the status stay (an expired or
    sold-out listing is not reactivated by an edit); every other listing,
    and the rest of the store, is unchanged. *)
Theorem updateListing_frame id listingData now st updated st' :
  updateListing id listingData now st = (Success updated, st') ->
  exists u i old,
    caller now st = Some u /\ may_manage u old /\
    listings st !! i = Some old /\ getListingById id st = Some old /\
    updated = listing_merge listingData now old /\
    listing_id updated = id /\
    listing_businessId updated = listing_businessId old /\
    listing_businessName updated = listing_businessName old /\
    listing_createdAt updated = listing_createdAt old /\
    listing_status updated = listing_status old /\
    listing_quantity updated = data_quantity listingData /\
    listing_updatedAt updated = Some now /\
    listings st' = <[i := updated]> (listings st) /\
    listings st' !! i = Some updated /\
    (forall j, j <> i -> listings st' !! j = listings st !! j) /\
    users st' = users st /\ orders st' = orders st /\
    cart st' = cart st /\ session st' = session st.
Proof.
  unfold updateListing.
  destruct (getCurrentUser now st) as [[u|] st0] eqn:Hu; [|discriminate].
  assert (caller now st = Some u) as Hcaller by (unfold caller; by rewrite Hu).
  pose proof (getCurrentUser_Some _ _ _ Hcaller) as [Hu' _].
  assert (st0 = st) as -> by congruence.
  destruct (negb (String.eqb (user_role u) "business")
            && negb (String.eqb (user_role u) "admin")) eqn:Hrole;
    [discriminate|].
  destruct (findIndex _ (listings st)) as [i|] eqn:Hi; [|discriminate].
  destruct (manage_lookup _ _ _ Hi) as (old & Hold & Hid & Hget & Hlt).
  rewrite Hold.
  destruct (negb (String.eqb (user_role u) "admin")
            && negb (String.eqb (listing_businessId old) (user_id u)))
    eqn:Hown; [discriminate|].
  intros [= <- <-]. exists u, i, old. simpl.
  repeat split; auto.
  - by apply may_manage_spec.
  - by apply list_lookup_insert_eq.
  - intros j Hj. by apply list_lookup_insert_ne.
Qed.

(** X7. A successful [deleteListing] was asked by an admin or by the owning
    business, and removes exactly one listing, the first with the given
    id; the others keep their order, and users, orders, cart and session
    are unchanged (a cart line for the deleted listing stays in the cart).
    When the listing ids are distinct, the id no longer resolves. *)
Theorem deleteListing_removes id now st message st' :
  deleteListing id now st = (Success message, st') ->
  exists u i old,
    caller now st = Some u /\ may_manage u old /\
    listings st !! i = Some old /\ getListingById id st = Some old /\
    listings st' = delete i (listings st) /\
    S (length (listings st')) = length (listings st) /\
    (forall l, l ∈ listings st' -> l ∈ listings st) /\
    (NoDup (map listing_id (listings st)) ->
     getListingById id st' = None) /\
    users st' = users st /\ orders st' = orders st /\
    cart st' = cart st /\ session st' = session st.
Proof.
  unfold deleteListing.
  destruct (getCurrentUser now st) as [[u|] st0] eqn:Hu; [|discriminate].
  assert (caller now st = Some u) as Hcaller by (unfold caller; by rewrite Hu).
  pose proof (getCurrentUser_Some _ _ _ Hcaller) as [Hu' _].
  assert (st0 = st) as -> by congruence.
  destruct (negb (String.eqb (user_role u) "business")
            && negb (String.eqb (user_role u) "admin")) eqn:Hrole;
    [discriminate|].
  destruct (findIndex _ (listings st)) as [i|] eqn:Hi; [|discriminate].
  destruct (manage_lookup _ _ _ Hi) as (old & Hold & Hid & Hget & Hlt).
  rewrite Hold.
  destruct (negb (String.eqb (user_role u) "admin")
            && negb (String.eqb (listing_businessId old) (user_id u)))
    eqn:Hown; [discriminate|].
  intros [= _ <-]. exists u, i, old. simpl.
  repeat split; auto.
  - by apply may_manage_spec.
  - rewrite length_delete by (by rewrite Hold). lia.
  - intros l Hl. by eapply list_elem_of_delete_inv.
  - intros Hnd. unfold getListingById. simpl. apply find_fresh.
    intros l Hl. apply String.eqb_neq. intros Hlid.
    apply list_elem_of_lookup in Hl as [j Hj].
    assert (exists k, k <> i /\ listings st !! k = Some l) as (k & Hk & Hkl).
    { destruct (decide (j < i)%nat).
      - exists j. split; [lia|]. by rewrite list_lookup_delete_lt in Hj.
      - exists (S j). split; [lia|].
        by rewrite list_lookup_delete_ge in Hj by lia. }
    apply Hk.
    apply (proj1 (NoDup_alt _) Hnd k i id);
      change (map listing_id (listings st)) with (listing_id <$> listings st);
      rewrite list_lookup_fmap.
    + rewrite Hkl. simpl. by rewrite Hlid.
    + rewrite Hold. simpl. by rewrite Hid.
Qed.
End ListingFacts.

(** ** The cart *)

Section CartFacts.
Context {num : Type} `{!JSNumber num}.
Implicit Types (st : Store num) (item : CartItem num)
  (items : list (CartItem num)).

(** The number of items in a list of cart lines. *)
Local Abbreviation count items :=
  (fold_left (fun total item => total + item_quantity item) items 0).

Lemma count_acc items (a : Z) :
  fold_left (fun total item => total + item_quantity item) items a
  = a + count items.
Proof.
  revert a. induction items as [|x items IH]; intros a; simpl; [lia|].
  rewrite (IH (a + _)), (IH (0 + _)). lia.
Qed.

Lemma count_cons item items :
  count (item :: items) = item_quantity item + count items.
Proof. simpl. rewrite count_acc. lia. Qed.

Lemma count_app items items' :
  count (items ++ items') = count items + count items'.
Proof. rewrite fold_left_app, count_acc. lia. Qed.

Lemma count_alter (f : CartItem num -> CartItem num) items i item :
  items !! i = Some item ->
  count (alter f i items)
  = count items - item_quantity item + item_quantity (f item).
Proof.
  revert i. induction items as [|x items IH]; intros [|i]; try discriminate.
  - intros [= ->]. change (alter f 0%nat (item :: items)) with (f item :: items).
    rewrite !count_cons. lia.
  - intros Hi. change (alter f (S i) (x :: items)) with (x :: alter f i items).
    rewrite !count_cons, (IH _ Hi). lia.
Qed.


Lemma filter_all {A} (p : A -> bool) (l : list A) :
  (forall x, x ∈ l -> p x = true) -> List.filter p l = l.
Proof.
  induction l as [|a l IH]; intros H; simpl; [done|].
  rewrite (H a (list_elem_of_here _ _)). f_equal.
  apply IH. intros x Hx. apply H. by apply list_elem_of_further.
Qed.

(** With one line per id, dropping the first line with an id is dropping
    all lines with that id. *)
Lemma delete_first_filter items itemId i :
  NoDup (map item_id items) ->
  findIndex (fun it => String.eqb (item_id it) itemId) items = Some i ->
  delete i items
  = List.filter (fun it => negb (String.eqb (item_id it) itemId)) items.
Proof.
  revert i. induction items as [|a items IH]; intros i Hnd; simpl;
    [discriminate|].
  apply NoDup_cons in Hnd as [Hfresh Hnd].
  destruct (String.eqb (item_id a) itemId) eqn:Ha; simpl.
  - intros [= <-]. simpl. symmetry. apply filter_all.
    intros x Hx. apply negb_true_iff, String.eqb_neq. intros Hid.
    apply Hfresh. apply String.eqb_eq in Ha.
    apply list_elem_of_fmap. exists x. split; [congruence|done].
  - destruct (findIndex _ items) as [k|] eqn:Hk; simpl; [|discriminate].
    intros [= <-]. simpl. f_equal. by apply IH.
Qed.

(** With one line per id, the line with a given id is the one [findIndex]
    stops at. *)
Lemma findIndex_line items item :
  NoDup (map item_id items) -> item ∈ items ->
  exists i,
    findIndex (fun it => String.eqb (item_id it) (item_id item)) items = Some i
    /\ items !! i = Some item.
Proof.
  intros Hnd Hin. apply list_elem_of_lookup in Hin as [j Hj].
  destruct (findIndex (fun it => String.eqb (item_id it) (item_id item)) items)
    as [i|] eqn:Hi.
  - exists i. split; [done|].
    apply findIndex_Some in Hi as (x & Hx & Hp & _). apply String.eqb_eq in Hp.
    assert (i = j) as ->; [|done].
    apply (proj1 (NoDup_alt _) Hnd i j (item_id item));
      change (map item_id items) with (item_id <$> items);
      rewrite list_lookup_fmap.
    + rewrite Hx. simpl. by rewrite Hp.
    + by rewrite Hj.
  - exfalso.
    pose proof (proj1 (findIndex_None _ _) Hi item
                  (list_elem_of_lookup_2 _ _ _ Hj)) as Hp.
    simpl in Hp. by rewrite String.eqb_refl in Hp.
Qed.

(** A line of non-negative quantities counts for no more than the cart. *)
Lemma count_bounds (c : list (CartItem num)) :
  Forall (fun line => 0 <= item_quantity line) c ->
  forall x, x ∈ c ->
    item_quantity x
    <= fold_left (fun total item => total + item_quantity item) c 0.
Proof.
  intros Hc x Hx. apply list_elem_of_lookup in Hx as [i Hi].
  rewrite <- (take_drop_middle c i x Hi) at 1.
  assert (forall (l : list (CartItem num)) a,
            Forall (fun line => 0 <= item_quantity line) l ->
            a <= fold_left (fun total item => total + item_quantity item) l a)
    as Hmono.
  { induction l as [|y l IH]; intros a Hl; simpl; [lia|].
    inversion Hl; subst. etrans; [|apply IH; done]. lia. }
  rewrite <- (take_drop_middle c i x Hi) in Hc.
  apply Forall_app in Hc as [Htake Hrest]. inversion Hrest; subst.
  rewrite fold_left_app. simpl.
  etrans; [|apply Hmono; done].
  pose proof (Hmono (take i c) 0 Htake). lia.
Qed.

Lemma addToCart_count item st :
  totalItems (snd (addToCart item st)) = totalItems st + item_quantity item.
Proof.
  unfold totalItems, addToCart. simpl.
  destruct (findIndex _ (cart st)) as [i|] eqn:Hi.
  - apply findIndex_Some in Hi as (x & Hx & _).
    rewrite (count_alter _ _ _ _ Hx). simpl. lia.
  - rewrite count_app. simpl. lia.
Qed.

(** X8. Quantities are JavaScript numbers, which count exactly up to
    2^53 - 1. When no line of the cart has a negative quantity, the added
    quantity is not negative and the new number of items is a safe integer
    (so every line quantity and every partial sum is one), [addToCart]
    raises the number of items in the cart by exactly the quantity of the
    added item, whether it opens a new line or tops up an existing one, and
    touches nothing but the cart. *)
Theorem addToCart_totalItems item st :
  Forall (fun line => 0 <= item_quantity line) (cart st) ->
  0 <= item_quantity item ->
  safe_count (totalItems st + item_quantity item) ->
  totalItems (snd (addToCart item st)) = totalItems st + item_quantity item /\
  safe_count (totalItems (snd (addToCart item st))) /\
  Forall (fun line => safe_count (item_quantity line))
    (cart (snd (addToCart item st))) /\
  fst (addToCart item st) = cart (snd (addToCart item st)) /\
  users (snd (addToCart item st)) = users st /\
  listings (snd (addToCart item st)) = listings st /\
  orders (snd (addToCart item st)) = orders st /\
  session (snd (addToCart item st)) = session st.
Proof.
  intros Hlines Hitem Hsafe.
  pose proof (addToCart_count item st) as Hcount.
  split; [exact Hcount|]. split; [by rewrite Hcount|].
  split; [|by repeat split].
  assert (Forall (fun line => 0 <= item_quantity line)
            (cart (snd (addToCart item st)))) as Hlines'.
  { unfold addToCart. simpl.
    destruct (findIndex _ (cart st)) as [i|].
    - apply Forall_alter; [done|]. intros x Hx Hpos.
      rewrite Forall_lookup in Hlines. specialize (Hlines i x Hx).
      simpl in *. lia.
    - apply Forall_app. split; [done|]. by constructor. }
  rewrite <- Hcount in Hsafe. revert Hlines' Hsafe.
  unfold totalItems. generalize (cart (snd (addToCart item st))).
  intros c Hc Hsafe. apply Forall_forall. intros x Hx.
  pose proof (count_bounds c Hc x Hx) as Hb.
  unfold safe_count in *. rewrite Forall_forall in Hc.
  specialize (Hc x Hx). simpl in Hc. lia.
Qed.

(** A positive quantity replaces the quantity of the line. *)
Lemma updateCartItemQuantity_set item quantity st :
  distinct_lines st -> item ∈ cart st -> 0 < quantity ->
  item_set_quantity quantity item
    ∈ cart (snd (updateCartItemQuantity (item_id item) quantity st)) /\
  totalItems (snd (updateCartItemQuantity (item_id item) quantity st))
  = totalItems st - item_quantity item + quantity.
Proof.
  unfold updateCartItemQuantity, totalItems, distinct_lines. simpl.
  intros Hnd Hin Hpos.
  destruct (findIndex_line _ _ Hnd Hin) as (i & -> & Hi).
  rewrite (proj2 (Z.leb_gt _ _) Hpos).
  split.
  - apply list_elem_of_lookup. exists i.
    by rewrite list_lookup_alter_eq, Hi.
  - by rewrite (count_alter _ _ _ _ Hi).
Qed.

Lemma removeFromCart_elem itemId st it :
  it ∈ cart (snd (removeFromCart itemId st))
  <-> it ∈ cart st /\ item_id it <> itemId.
Proof.
  unfold removeFromCart. simpl.
  rewrite list_elem_of_In, filter_In, <- list_elem_of_In.
  rewrite negb_true_iff. by rewrite String.eqb_neq.
Qed.

(** X9. [updateCartItemQuantity]: an id that is not in the cart changes
    nothing; a positive quantity replaces the quantity of the line and moves
    the item count by the difference; with one line per id, a quantity of
    zero or less does exactly what [removeFromCart] does. *)
Theorem updateCartItemQuantity_cases itemId quantity st :
  ((forall it, it ∈ cart st -> item_id it <> itemId) ->
   snd (updateCartItemQuantity itemId quantity st) = set_cart (cart st) st) /\
  (forall item, distinct_lines st -> item ∈ cart st ->
     item_id item = itemId -> 0 < quantity ->
     item_set_quantity quantity item
       ∈ cart (snd (updateCartItemQuantity itemId quantity st)) /\
     totalItems (snd (updateCartItemQuantity itemId quantity st))
     = totalItems st - item_quantity item + quantity) /\
  (distinct_lines st -> quantity <= 0 ->
   updateCartItemQuantity itemId quantity st = removeFromCart itemId st).
Proof.
  unfold updateCartItemQuantity, removeFromCart, totalItems, distinct_lines.
  simpl. split; [|split].
  - intros Hnone.
    assert (findIndex (fun i => String.eqb (item_id i) itemId) (cart st) = None)
      as ->; [|done].
    apply findIndex_None. intros x Hx. apply String.eqb_neq. by apply Hnone.
  - intros item Hnd Hin <- Hpos.
    by apply (updateCartItemQuantity_set item quantity st).
  - intros Hnd Hle.
    destruct (findIndex (fun i => String.eqb (item_id i) itemId) (cart st))
      as [i|] eqn:Hi.
    + rewrite (proj2 (Z.leb_le _ _) Hle).
      by rewrite (delete_first_filter _ _ _ Hnd Hi).
    + rewrite filter_all; [done|].
      intros x Hx. apply negb_true_iff.
      by apply (proj1 (findIndex_None _ _) Hi).
Qed.

(** X10. After [removeFromCart] no line has the removed id, the lines with
    another id are all still there, and removing the same id again changes
    nothing. *)
Theorem removeFromCart_spec itemId st :
  let st' := snd (removeFromCart itemId st) in
  (forall it, it ∈ cart st' <-> it ∈ cart st /\ item_id it <> itemId) /\
  snd (removeFromCart itemId st') = st' /\
  same_data (set_cart (cart st') st) st'.
Proof.
  unfold removeFromCart, same_data. simpl. split; [|split; [|done]].
  - intros it. apply (removeFromCart_elem itemId st it).
  - unfold set_cart. simpl. f_equal.
    apply filter_all. intros x Hx.
    apply list_elem_of_In, filter_In in Hx. tauto.
Qed.


Lemma NoDup_map_delete {A B} (f : A -> B) (l : list A) i :
  NoDup (map f l) -> NoDup (map f (delete i l)).
Proof.
  revert i. induction l as [|a l IH]; intros [|i] Hnd; simpl; try done.
  - by apply NoDup_cons in Hnd as [_ ?].
  - apply NoDup_cons in Hnd as [Hfresh Hnd]. apply NoDup_cons.
    split; [|by apply IH]. intros Hin. apply Hfresh.
    apply (list_elem_of_fmap (A := A)) in Hin as (x & -> & Hx).
    apply list_elem_of_fmap. exists x. split; [done|].
    by eapply list_elem_of_delete_inv.
Qed.

Lemma NoDup_map_filter {A B} (f : A -> B) (p : A -> bool) (l : list A) :
  NoDup (map f l) -> NoDup (map f (List.filter p l)).
Proof.
  induction l as [|a l IH]; intros Hnd; simpl; [done|].
  apply NoDup_cons in Hnd as [Hfresh Hnd].
  destruct (p a); simpl; [|by apply IH].
  apply NoDup_cons. split; [|by apply IH]. intros Hin. apply Hfresh.
  apply (list_elem_of_fmap (A := A)) in Hin as (x & -> & Hx).
  apply list_elem_of_fmap. exists x. split; [done|].
  apply list_elem_of_In, filter_In in Hx as [Hx _]. by apply list_elem_of_In.
Qed.

(** X12. Every operation on the cart keeps one line per listing id:
    [addToCart], [updateCartItemQuantity], [removeFromCart], [clearCart],
    the listing page's [addToCart] and [createOrder]. *)
Theorem cart_lines_stay_distinct st :
  distinct_lines st ->
  (forall item, distinct_lines (snd (addToCart item st))) /\
  (forall itemId quantity,
     distinct_lines (snd (updateCartItemQuantity itemId quantity st))) /\
  (forall itemId, distinct_lines (snd (removeFromCart itemId st))) /\
  distinct_lines (snd (clearCart st)) /\
  (forall listingId quantity now,
     distinct_lines (snd (ListingService.addToCart listingId quantity now st))) /\
  (forall orderData now newId,
     distinct_lines (snd (createOrder orderData now newId st))).
Proof.
  unfold distinct_lines. intros Hnd.
  assert (forall st0 : Store num, cart st0 = cart st ->
            forall item, NoDup (map item_id (cart (snd (addToCart item st0)))))
    as Hadd.
  { intros st0 Hc item. apply addToCart_NoDup. by rewrite Hc. }
  split; [by apply Hadd|]. split; [|split; [|split; [|split]]].
  - intros itemId quantity. unfold updateCartItemQuantity. simpl.
    destruct (findIndex _ (cart st)) as [i|]; [|done].
    destruct (quantity <=? 0).
    + by apply NoDup_map_delete.
    + by rewrite alter_keeps.
  - intros itemId. unfold removeFromCart. simpl. by apply NoDup_map_filter.
  - simpl. constructor.
  - intros listingId quantity now. unfold ListingService.addToCart.
    pose proof (getCurrentUser_frame now st) as (_ & _ & _ & Hc).
    destruct (getCurrentUser now st) as [[u|] st0]; cbn [snd] in Hc |- *;
      [|by rewrite Hc].
    destruct (negb (String.eqb (user_role u) "customer"));
      [cbn [snd]; by rewrite Hc|].
    destruct (getListingById listingId st0) as [l|]; [|cbn [snd]; by rewrite Hc].
    destruct (isExpired now (listing_expiryDate l)); [cbn [snd]; by rewrite Hc|].
    destruct (listing_quantity l <=? 0); [cbn [snd]; by rewrite Hc|].
    cbn [snd]. by apply Hadd.
  - intros orderData now newId. unfold createOrder.
    pose proof (getCurrentUser_frame now st) as (_ & _ & _ & Hc).
    destruct (getCurrentUser now st) as [[u|] st0]; simpl in Hc |- *;
      [|by rewrite Hc].
    destruct (cart st0) eqn:Hc0; simpl; [rewrite Hc0|]; constructor.
Qed.
End CartFacts.

(** ** Orders, once more *)

Section MoreOrderFacts.
Context {num : Type} `{!JSNumber num}.
Implicit Types (st : Store num) (u : User) (o : Order num).

(** X13. After a successful [createOrder] under an id that no stored order
    has, [getOrderById] returns the new order under that id: pending,
    placed now by the caller, holding the cart lines and the order details
    as given; the orders stored before are still found under their ids. *)
Theorem createOrder_getOrderById orderData now newId st u :
  caller now st = Some u ->
  cart st <> [] ->
  (forall o, o ∈ orders st -> order_id o <> newId) ->
  exists order st',
    createOrder orderData now newId st = (Success order, st') /\
    orders st' = orders st ++ [order] /\
    getOrderById newId st' = Some order /\
    order_status order = "pending" /\
    order_userId order = user_id u /\
    order_items order = cart st /\
    order_data order = orderData /\
    order_createdAt order = now /\
    order_updatedAt order = None /\
    (forall id, id <> newId -> getOrderById id st' = getOrderById id st) /\
    users st' = users st /\ session st' = session st.
Proof.
  intros Hu Hcart Hfresh. eexists _, _. split.
  { by apply createOrder_success. }
  simpl. split; [done|]. unfold getOrderById. simpl. split.
  { rewrite find_snoc, find_fresh; simpl.
    - by rewrite String.eqb_refl.
    - intros o Ho. apply String.eqb_neq. by apply Hfresh. }
  repeat split; try done.
  intros id Hid. rewrite find_snoc. simpl.
  destruct (List.find _ (orders st)); [done|].
  apply not_eq_sym, String.eqb_neq in Hid. by rewrite Hid.
Qed.

(** X14. A checkout cannot be repeated: once [createOrder] has succeeded,
    any further [createOrder] on the store it left fails, whatever the
    details, the clock and the id, and creates no order and changes no
    listing; while the session lasts the message is "Cart is empty". *)
Theorem createOrder_twice orderData now newId st order st' :
  createOrder orderData now newId st = (Success order, st') ->
  forall orderData' now' newId',
    success (fst (createOrder orderData' now' newId' st')) = false /\
    orders (snd (createOrder orderData' now' newId' st')) = orders st' /\
    listings (snd (createOrder orderData' now' newId' st')) = listings st' /\
    (caller now' st' <> None ->
     createOrder orderData' now' newId' st' = (Failure "Cart is empty", st')).
Proof.
  intros Hrun orderData' now' newId'.
  assert (cart st' = []) as Hempty.
  { assert (success (fst (createOrder orderData now newId st)) = true) as Hok
      by by rewrite Hrun.
    destruct (caller now st) as [u|] eqn:Hu; cycle 1.
    { assert (success (fst (createOrder orderData now newId st)) = false)
        by (apply createOrder_fails_iff; by left). congruence. }
    destruct (decide (cart st = [])) as [Hc|Hc].
    { assert (success (fst (createOrder orderData now newId st)) = false)
        by (apply createOrder_fails_iff; by right). congruence. }
    rewrite (createOrder_success _ _ _ _ u Hu Hc) in Hrun.
    by injection Hrun as _ <-. }
  assert (success (fst (createOrder orderData' now' newId' st')) = false)
    as Hfail by (apply createOrder_fails_iff; by right).
  split; [done|].
  destruct (createOrder_failure_frame _ _ _ _ Hfail) as (Hos & Hls & _).
  split; [done|]. split; [done|].
  intros Hcaller. destruct (caller now' st') as [v|] eqn:Hv; [|done].
  apply getCurrentUser_Some in Hv as [Hv _].
  unfold createOrder. by rewrite Hv, Hempty.
Qed.

(** X15. When the cart has one line per listing id and no line asks for
    more than its listing holds, [createOrder] keeps every listing quantity
    non-negative, whether it succeeds or fails. *)
Theorem createOrder_within_stock orderData now newId st :
  distinct_lines st ->
  within_stock (cart st) (listings st) ->
  stock_ok (listings st) ->
  stock_ok (listings (snd (createOrder orderData now newId st))).
Proof.
  intros Hnd Hin Hok.
  destruct (success (fst (createOrder orderData now newId st))) eqn:Hres.
  - destruct (caller now st) as [u|] eqn:Hu; cycle 1.
    { assert (success (fst (createOrder orderData now newId st)) = false)
        by (apply createOrder_fails_iff; by left). congruence. }
    destruct (decide (cart st = [])) as [Hc|Hc].
    { assert (success (fst (createOrder orderData now newId st)) = false)
        by (apply createOrder_fails_iff; by right). congruence. }
    rewrite (createOrder_success _ _ _ _ u Hu Hc). simpl.
    by apply checkout_within_stock.
  - destruct (createOrder_failure_frame _ _ _ _ Hres) as (_ & -> & _).
    exact Hok.
Qed.

Lemma find_of_findIndex {A} (p : A -> bool) (l : list A) :
  List.find p l
  = match findIndex p l with Some i => l !! i | None => None end.
Proof.
  induction l as [|a l IH]; simpl; [done|].
  destruct (p a); [done|]. rewrite IH. by destruct (findIndex p l).
Qed.

(** X16. [updateOrderStatus] succeeds exactly when a caller is resolved, an
    order with the id exists, and the caller is an admin or a business
    that has an item in the first such order; a customer can never change
    an order's status. Whenever it fails, users, listings, orders and cart
    are unchanged. *)
Theorem updateOrderStatus_authorized id status now st :
  (success (fst (updateOrderStatus id status now st)) = true <->
   exists u o,
     caller now st = Some u /\ getOrderById id st = Some o /\
     (user_role u = "admin" \/
      (user_role u = "business" /\ has_item_of (user_id u) o = true))) /\
  (success (fst (updateOrderStatus id status now st)) = false ->
   same_data st (snd (updateOrderStatus id status now st))).
Proof.
  unfold updateOrderStatus, getOrderById, caller.
  pose proof (getCurrentUser_frame now st) as Hfr.
  destruct (getCurrentUser now st) as [[u|] st0] eqn:Hu; simpl in Hfr |- *.
  2:{ split; [|intros _; unfold same_data; tauto].
      split; [discriminate|]. by intros (? & ? & [=] & _). }
  assert (fst (getCurrentUser now st) = Some u) as Hu' by by rewrite Hu.
  apply getCurrentUser_Some in Hu' as [Hu' _].
  assert (st0 = st) as -> by congruence.
  rewrite find_of_findIndex.
  destruct (negb (String.eqb (user_role u) "business")
            && negb (String.eqb (user_role u) "admin")) eqn:Hrole.
  { simpl. split; [|intros _; by unfold same_data].
    split; [discriminate|].
    intros (u' & o & [= <-] & _ & [Ha|[Hb _]]).
    - by rewrite Ha in Hrole.
    - by rewrite Hb in Hrole. }
  destruct (findIndex _ (orders st)) as [i|] eqn:Hi; cycle 1.
  { simpl. split; [|intros _; by unfold same_data].
    split; [discriminate|]. by intros (? & ? & _ & [=] & _). }
  apply findIndex_Some in Hi as (o & Ho & _). rewrite Ho.
  destruct (String.eqb (user_role u) "business"
            && negb (has_item_of (user_id u) o)) eqn:Hown; simpl.
  - split; [|intros _; by unfold same_data].
    split; [discriminate|].
    intros (u' & o' & [= <-] & [= <-] & [Ha|[Hb Hitem]]).
    + by rewrite Ha in Hown.
    + by rewrite Hb, Hitem in Hown.
  - split; [|discriminate]. split; [intros _|done].
    exists u, o. split; [done|]. split; [done|].
    destruct (String.eqb (user_role u) "admin") eqn:Hadmin.
    + left. by apply String.eqb_eq.
    + right. rewrite andb_true_r in Hrole. apply negb_false_iff in Hrole.
      rewrite Hrole in Hown. simpl in Hown. apply negb_false_iff in Hown.
      split; [by apply String.eqb_eq|done].
Qed.
End MoreOrderFacts.

(** ** Administering users *)

Section UserAdminFacts.
Context {num : Type} `{!JSNumber num}.
Variable toLowerCase : string -> string.
Implicit Types (st : Store num) (u : User).

(** What a successful [updateUserStatus] did. *)
Lemma updateUserStatus_Success id status now st message st' :
  updateUserStatus id status now st = (Success message, st') ->
  exists u i target,
    caller now st = Some u /\ user_role u = "admin" /\ id <> user_id u /\
    users st !! i = Some target /\ user_id target = id /\
    List.find (fun v => String.eqb (user_id v) id) (users st) = Some target /\
    st' = set_users (<[i := user_set_status status now target]> (users st)) st.
Proof.
  unfold updateUserStatus.
  destruct (getCurrentUser now st) as [[u|] st0] eqn:Hu; [|discriminate].
  assert (caller now st = Some u) as Hcaller by (unfold caller; by rewrite Hu).
  pose proof (getCurrentUser_Some _ _ _ Hcaller) as [Hu' _].
  assert (st0 = st) as -> by congruence.
  destruct (String.eqb (user_role u) "admin") eqn:Hadmin; [|discriminate].
  simpl.
  destruct (findIndex _ (users st)) as [i|] eqn:Hi; [|discriminate].
  destruct (String.eqb id (user_id u)) eqn:Hself; [discriminate|].
  intros [= _ <-].
  pose proof (find_of_findIndex (fun v => String.eqb (user_id v) id) (users st))
    as Hfind. rewrite Hi in Hfind.
  apply findIndex_Some in Hi as (target & Htarget & Hid & _).
  apply String.eqb_eq in Hid, Hadmin. apply String.eqb_neq in Hself.
  exists u, i, target. rewrite (alter_at _ _ _ _ Htarget).
  repeat split; auto. congruence.
Qed.

(** X17. A successful [updateUserStatus] was asked by an admin about
    another user's id; it rewrites the first user with that id, changing
    the status and [updatedAt] and nothing else of that user (not the
    email, the password or the role), and leaves the other users, the
    listings, the orders, the cart and the session as they were. *)
Theorem updateUserStatus_frame id status now st message st' :
  updateUserStatus id status now st = (Success message, st') ->
  exists u i target,
    caller now st = Some u /\ user_role u = "admin" /\ id <> user_id u /\
    users st !! i = Some target /\ user_id target = id /\
    List.find (fun v => String.eqb (user_id v) id) (users st) = Some target /\
    users st' = <[i := user_set_status status now target]> (users st) /\
    user_status (user_set_status status now target) = status /\
    user_email (user_set_status status now target) = user_email target /\
    user_password (user_set_status status now target) = user_password target /\
    user_role (user_set_status status now target) = user_role target /\
    (forall j, j <> i -> users st' !! j = users st !! j) /\
    listings st' = listings st /\ orders st' = orders st /\
    cart st' = cart st /\ session st' = session st.
Proof.
  intros Hrun.
  apply updateUserStatus_Success in Hrun
    as (u & i & target & Hu & Hrole & Hself & Htarget & Hid & Hfind & ->).
  exists u, i, target. simpl. repeat split; auto.
  intros j Hj. by apply list_lookup_insert_ne.
Qed.

Lemma unique_emails_alter (f : User -> User) (us : list User) i :
  (forall x, user_email (f x) = user_email x) ->
  unique_emails toLowerCase us -> unique_emails toLowerCase (alter f i us).
Proof.
  intros Hf Huniq.
  assert (forall j v, alter f i us !! j = Some v ->
            exists w, us !! j = Some w /\ user_email v = user_email w) as Hback.
  { intros j v Hv. destruct (decide (i = j)) as [<-|Hne].
    - rewrite list_lookup_alter_eq in Hv.
      destruct (us !! i) as [w|]; [|discriminate].
      injection Hv as <-. by exists w.
    - rewrite list_lookup_alter_ne in Hv by done. by exists v. }
  intros j k v w Hj Hk Heq.
  destruct (Hback _ _ Hj) as (v0 & Hv0 & Hev).
  destruct (Hback _ _ Hk) as (w0 & Hw0 & Hew).
  eapply Huniq; eauto. congruence.
Qed.

(** X18. Blocking works, and so does lifting the block. In a store whose
    users have unique emails, after a successful [updateUserStatus] with
    status "blocked" every [login] with the target's email fails and
    leaves the store alone, whatever the password; after one with another
    status, [login] with the target's email and password (both non-empty)
    succeeds and opens a session for the target. *)
Theorem updateUserStatus_then_login id status now st message st' :
  unique_emails toLowerCase (users st) ->
  updateUserStatus id status now st = (Success message, st') ->
  exists target,
    List.find (fun v => String.eqb (user_id v) id) (users st) = Some target /\
    unique_emails toLowerCase (users st') /\
    (status = "blocked" ->
     forall password now', exists m,
       login toLowerCase (user_email target) password now' st'
       = (Failure m, st')) /\
    (status <> "blocked" ->
     user_email target <> "" -> user_password target <> "" ->
     forall now',
       login toLowerCase (user_email target) (user_password target) now' st'
       = (Success "Login successful!",
          set_session
            (Some (new_Session now' (user_set_status status now target))) st')).
Proof.
  intros Huniq Hrun.
  destruct (updateUserStatus_Success _ _ _ _ _ _ Hrun)
    as (u & i & target & _ & _ & _ & Htarget & _ & Hfind & Hst).
  assert (users st' = <[i := user_set_status status now target]> (users st))
    as Hus by by rewrite Hst.
  assert (users st' = alter (user_set_status status now) i (users st)) as Halter.
  { by rewrite (alter_at _ _ _ _ Htarget). }
  assert (unique_emails toLowerCase (users st')) as Huniq'.
  { rewrite Halter. by apply unique_emails_alter. }
  assert (user_set_status status now target ∈ users st') as Hin.
  { rewrite Hus. apply list_elem_of_lookup. exists i.
    apply list_lookup_insert_eq. by eapply lookup_lt_Some. }
  pose proof (find_by_email_unique _ _ _ Huniq' Hin) as Hlookup.
  simpl in Hlookup.
  exists target. split; [done|]. split; [done|]. split.
  - intros -> password now'. unfold login.
    destruct (negb (truthy (user_email target)) || negb (truthy password));
      [by eexists|].
    rewrite Hlookup. simpl.
    destruct (negb (String.eqb (user_password target) password));
      by eexists.
  - intros Hstatus Hemail Hpassword now'. unfold login, truthy.
    apply String.eqb_neq in Hemail, Hpassword, Hstatus.
    rewrite Hemail, Hpassword. simpl.
    by rewrite Hlookup; simpl; rewrite String.eqb_refl, Hstatus.
Qed.

(** X19. [getUsers] answers admins only. For an admin, a role filter (a
    non-empty string other than "all") returns exactly the stored users
    with that role, newest first; no filter object returns the users as
    stored. The store is not changed. *)
Theorem getUsers_by_role now st u :
  caller now st = Some u ->
  (user_role u <> "admin" ->
   forall filters,
     getUsers toLowerCase filters now st
     = (Failure "Unauthorized: Only admins can view all users", st)) /\
  (user_role u = "admin" ->
   getUsers toLowerCase None now st = (Success (users st), st) /\
   forall role, role <> "" -> role <> "all" ->
     let filters :=
       Some {| ufilter_role := Some role; ufilter_status := None;
               ufilter_search := None |} in
     getUsers toLowerCase filters now st
     = (Success
          (sort_desc user_createdAt
             (List.filter (fun v => String.eqb (user_role v) role) (users st))),
        st) /\
     forall v,
       v ∈ sort_desc user_createdAt
             (List.filter (fun v => String.eqb (user_role v) role) (users st))
       <-> v ∈ users st /\ user_role v = role).
Proof.
  intros Hu. apply getCurrentUser_Some in Hu as [Hu _].
  unfold getUsers. rewrite Hu. split.
  - intros Hrole filters. apply String.eqb_neq in Hrole. by rewrite Hrole.
  - intros Hrole. rewrite Hrole. simpl. split; [done|].
    intros role Hne Hall. unfold truthy.
    apply String.eqb_neq in Hne, Hall. rewrite Hne, Hall. simpl.
    split; [done|]. intros v. rewrite sort_desc_perm.
    rewrite list_elem_of_In, filter_In, <- list_elem_of_In.
    by rewrite String.eqb_eq.
Qed.

(** X20. [getUserById] returns a profile exactly when the caller is an
    admin or asks for the caller's own id, and a user with the id is
    stored (the first one is returned); a non-admin can never read another
    user's profile. *)
Theorem getUserById_authorized id now st v :
  fst (getUserById id now st) = Success v <->
  exists u,
    caller now st = Some u /\
    (user_role u = "admin" \/ user_id u = id) /\
    List.find (fun w => String.eqb (user_id w) id) (users st) = Some v.
Proof.
  unfold getUserById, caller.
  destruct (getCurrentUser now st) as [[u|] st0] eqn:Hu; simpl.
  2:{ split; [discriminate|]. by intros (? & [=] & _). }
  assert (fst (getCurrentUser now st) = Some u) as Hu' by by rewrite Hu.
  apply getCurrentUser_Some in Hu' as [Hu' _].
  assert (st0 = st) as -> by congruence.
  destruct (negb (String.eqb (user_role u) "admin")
            && negb (String.eqb (user_id u) id)) eqn:Hauth; simpl.
  - split; [discriminate|]. intros (u' & [= <-] & [Ha|Hb] & _).
    + by rewrite Ha in Hauth.
    + by rewrite Hb, String.eqb_refl, andb_false_r in Hauth.
  - destruct (List.find _ (users st)) as [w|] eqn:Hfind; simpl.
    + split.
      * intros [= ->]. exists u. split; [done|]. split; [|done].
        apply andb_false_iff in Hauth as [H1|H1]; apply negb_false_iff in H1.
        -- left. by apply String.eqb_eq.
        -- right. by apply String.eqb_eq.
      * by intros (_ & _ & _ & [= ->]).
    + split; [discriminate|]. by intros (_ & _ & _ & [=]).
Qed.
End UserAdminFacts.

(** ** The pages and the API *)

Section PageFacts.
Context {num : Type} `{!JSNumber num}.
Implicit Types (st : Store num) (u : User).

(** What a successful [createOrder] started from. *)
Lemma createOrder_Success orderData now newId st order st' :
  createOrder orderData now newId st = (Success order, st') ->
  exists u,
    caller now st = Some u /\ cart st <> [] /\
    order_data order = orderData /\ order_items order = cart st /\
    order_userId order = user_id u /\
    orders st' = orders st ++ [order] /\ cart st' = [] /\
    listings st' = fold_left purchase (cart st) (listings st).
Proof.
  intros Hrun.
  assert (success (fst (createOrder orderData now newId st)) = true) as Hok
    by by rewrite Hrun.
  destruct (caller now st) as [u|] eqn:Hu; cycle 1.
  { assert (success (fst (createOrder orderData now newId st)) = false)
      by (apply createOrder_fails_iff; by left). congruence. }
  destruct (decide (cart st = [])) as [Hc|Hc].
  { assert (success (fst (createOrder orderData now newId st)) = false)
      by (apply createOrder_fails_iff; by right). congruence. }
  rewrite (createOrder_success _ _ _ _ u Hu Hc) in Hrun.
  injection Hrun as <- <-. by exists u.
Qed.

Lemma truthy_nonempty s : truthy s = true -> s <> "".
Proof. unfold truthy. rewrite negb_true_iff. apply String.eqb_neq. Qed.

(** X21. An order placed through the checkout form always has a name, an
    email and a phone number that are not empty, a pickup time after the
    clock reading, and a selected pickup location; the stored order carries
    exactly those details, and it was placed by a resolved caller from a
    cart that was not empty. *)
Theorem submitCheckoutForm_placed form now newId st order st' :
  submitCheckoutForm form now newId st = (CheckoutPlaced order, st') ->
  form_name form <> "" /\ form_email form <> "" /\ form_phone form <> "" /\
  exists t selected u,
    form_pickupTime form = Some t /\ now < t /\
    form_selected form = Some selected /\
    caller now st = Some u /\ cart st <> [] /\
    order_data order
    = {| customerName := form_name form; customerEmail := form_email form;
         customerPhone := form_phone form; pickupTime := t;
         notes := form_notes form;
         pickupLocationId := option_businessId selected;
         pickupLocationName := option_name selected;
         pickupAddress := option_address selected |} /\
    orders st' = orders st ++ [order] /\ cart st' = [].
Proof.
  unfold submitCheckoutForm.
  destruct (form_selected form) as [selected|]; [|discriminate].
  destruct (form_pickupTime form) as [t|]; [|discriminate]. simpl.
  destruct (truthy (form_name form)) eqn:Hname; [|discriminate].
  destruct (truthy (form_email form)) eqn:Hemail; [|discriminate].
  destruct (truthy (form_phone form)) eqn:Hphone; [|discriminate]. simpl.
  destruct (t <=? now) eqn:Ht; [discriminate|].
  destruct (createOrder _ now newId st) as [[o|m] st0] eqn:Hrun;
    [|discriminate].
  intros [= <- <-].
  apply createOrder_Success in Hrun
    as (u & Hu & Hc & Hdata & _ & _ & Hos & Hcart & _).
  repeat split; try by apply truthy_nonempty.
  exists t, selected, u. repeat split; auto. lia.
Qed.

End PageFacts.

(** X23. The order summary that the checkout dialog shows for a cart, set
    against the order that [createOrder] then stores for it: the dialog's
    subtotal and savings are the stored ones; the dialog's tax is the stored
    subtotal times 0.08 and its total the stored subtotal plus that tax,
    each rounded once, whereas the stored tax and total are summed line by
    line. In binary64 the two taxes and the two totals need not be the same
    number. *)
Theorem checkout_summary_of_order {num : Type} `{!JSNumber num}
    orderData now newId (st : Store num) order st' :
  createOrder orderData now newId st = (Success order, st') ->
  summary_subtotal (checkout_summary (cart st)) = order_subtotal order /\
  summary_savings (checkout_summary (cart st)) = order_savings order /\
  summary_tax (checkout_summary (cart st))
  = num_mul (order_subtotal order) lit_0_08 /\
  summary_total (checkout_summary (cart st))
  = num_add (order_subtotal order) (num_mul (order_subtotal order) lit_0_08) /\
  order_tax order = sum_left line_tax (cart st) /\
  order_total order = sum_left line_total (cart st).
Proof.
  intros Hrun.
  pose proof (createOrder_Success _ _ _ _ _ _ Hrun) as (u & Hu & Hc & _).
  rewrite (createOrder_success _ _ _ _ u Hu Hc) in Hrun.
  injection Hrun as <- _. simpl.
  split; [reflexivity|]. split; [reflexivity|].
  split; [reflexivity|]. split; [reflexivity|].
  split.
  - exact (reduce_sum_left line_tax (cart st)).
  - exact (reduce_sum_left line_total (cart st)).
Qed.

(** ** Relative times *)

Lemma minutes_of (d : Z) : d / 1000 / 60 = d / 60000.
Proof. rewrite Z.div_div by lia. reflexivity. Qed.

Lemma hours_of (d : Z) : d / 1000 / 60 / 60 = d / 3600000.
Proof. rewrite !Z.div_div by lia. reflexivity. Qed.

Lemma days_of (d : Z) : d / 1000 / 60 / 60 / 24 = d / 86400000.
Proof. rewrite !Z.div_div by lia. reflexivity. Qed.

(** X24. [formatTimeUntilExpiry] says "Expired" exactly for the dates that
    [isExpired] reports as expired, so the label on a listing card and the
    expiry check of the catalog never disagree. *)
Theorem formatTimeUntilExpiry_Expired now date :
  formatTimeUntilExpiry now date = "Expired" <-> isExpired now date = true.
Proof.
  unfold formatTimeUntilExpiry, isExpired.
  destruct ((date - now) / 1000 <? 0) eqn:Hneg.
  - split; [intros _|done]. apply Z.ltb_lt in Hneg. apply Z.ltb_lt.
    Z.div_mod_to_equations. lia.
  - apply Z.ltb_ge in Hneg.
    assert ((date <? now) = false) as ->.
    { apply Z.ltb_ge. Z.div_mod_to_equations. lia. }
    split; [|discriminate].
    destruct (_ <? 60); [|destruct (_ <? 24)]; simpl; discriminate.
Qed.

(** X25. For a date that has not passed, [formatTimeUntilExpiry] shows the
    time left in whole units, rounded down: minutes below one hour, hours
    below one day, days from then on, each computed from the millisecond
    difference in one step, with the plural "s" exactly above one. *)
Theorem formatTimeUntilExpiry_units now date :
  now <= date ->
  let d := date - now in
  formatTimeUntilExpiry now date
  = if d <? 3600000
    then "Expires in " +:+ pretty (d / 60000) +:+ " minute"
         +:+ plural (d / 60000)
    else if d <? 86400000
    then "Expires in " +:+ pretty (d / 3600000) +:+ " hour"
         +:+ plural (d / 3600000)
    else "Expires in " +:+ pretty (d / 86400000) +:+ " day"
         +:+ plural (d / 86400000).
Proof.
  intros Hle d. unfold formatTimeUntilExpiry. cbv zeta. fold d.
  assert ((d / 1000 <? 0) = false) as ->.
  { apply Z.ltb_ge. apply Z.div_pos; lia. }
  rewrite (days_of d), (hours_of d), (minutes_of d).
  assert ((d / 60000 <? 60) = (d <? 3600000)) as ->.
  { destruct (d <? 3600000) eqn:Hd.
    - apply Z.ltb_lt in Hd. apply Z.ltb_lt. Z.div_mod_to_equations. lia.
    - apply Z.ltb_ge in Hd. apply Z.ltb_ge. Z.div_mod_to_equations. lia. }
  assert ((d / 3600000 <? 24) = (d <? 86400000)) as ->.
  { destruct (d <? 86400000) eqn:Hd.
    - apply Z.ltb_lt in Hd. apply Z.ltb_lt. Z.div_mod_to_equations. lia.
    - apply Z.ltb_ge in Hd. apply Z.ltb_ge. Z.div_mod_to_equations. lia. }
  reflexivity.
Qed.

Section FormattingFacts.
Variable formatDate : Z -> string.

(** X26. [formatRelativeTime] reads "just now" for every date less than a
    minute old, dates in the future included; it then counts whole minutes
    up to an hour, whole hours up to a day and whole days up to a week,
    rounded down, and prints the date itself from seven days on. *)
Theorem formatRelativeTime_units now date :
  let d := now - date in
  formatRelativeTime formatDate now date
  = if d <? 60000 then "just now"
    else if d <? 3600000
    then pretty (d / 60000) +:+ " minute" +:+ plural (d / 60000) +:+ " ago"
    else if d <? 86400000
    then pretty (d / 3600000) +:+ " hour" +:+ plural (d / 3600000) +:+ " ago"
    else if d <? 604800000
    then pretty (d / 86400000) +:+ " day" +:+ plural (d / 86400000) +:+ " ago"
    else formatDate date.
Proof.
  intros d. unfold formatRelativeTime. cbv zeta. fold d.
  rewrite (days_of d), (hours_of d), (minutes_of d).
  assert ((d / 1000 <? 60) = (d <? 60000)) as ->.
  { destruct (d <? 60000) eqn:Hd.
    - apply Z.ltb_lt in Hd. apply Z.ltb_lt. Z.div_mod_to_equations. lia.
    - apply Z.ltb_ge in Hd. apply Z.ltb_ge. Z.div_mod_to_equations. lia. }
  assert ((d / 60000 <? 60) = (d <? 3600000)) as ->.
  { destruct (d <? 3600000) eqn:Hd.
    - apply Z.ltb_lt in Hd. apply Z.ltb_lt. Z.div_mod_to_equations. lia.
    - apply Z.ltb_ge in Hd. apply Z.ltb_ge. Z.div_mod_to_equations. lia. }
  assert ((d / 3600000 <? 24) = (d <? 86400000)) as ->.
  { destruct (d <? 86400000) eqn:Hd.
    - apply Z.ltb_lt in Hd. apply Z.ltb_lt. Z.div_mod_to_equations. lia.
    - apply Z.ltb_ge in Hd. apply Z.ltb_ge. Z.div_mod_to_equations. lia. }
  assert ((d / 86400000 <? 7) = (d <? 604800000)) as ->.
  { destruct (d <? 604800000) eqn:Hd.
    - apply Z.ltb_lt in Hd. apply Z.ltb_lt. Z.div_mod_to_equations. lia.
    - apply Z.ltb_ge in Hd. apply Z.ltb_ge. Z.div_mod_to_equations. lia. }
  reflexivity.
Qed.
End FormattingFacts.

(** ** Reading the collections *)

Section ReadFacts.
Context {num : Type} `{!JSNumber num}.
Variable toLowerCase : string -> string.
Implicit Types (st : Store num).

Lemma insert_desc_sorted {A} (key : A -> Z) (x : A) (l : list A) :
  newest_first key l -> newest_first key (insert_desc key x l).
Proof.
  unfold newest_first. induction l as [|y l IH]; intros Hs; simpl.
  - by repeat constructor.
  - apply StronglySorted_inv in Hs as [Hs Hy].
    destruct (key y <=? key x) eqn:Hle.
    + apply Z.leb_le in Hle. constructor; [by constructor|].
      constructor; [done|].
      eapply Forall_impl; [exact Hy|]. simpl. intros b Hb. lia.
    + apply Z.leb_gt in Hle. constructor; [by apply IH|].
      rewrite insert_desc_perm. constructor; [lia|done].
Qed.

Lemma sort_desc_sorted {A} (key : A -> Z) (l : list A) :
  newest_first key (sort_desc key l).
Proof.
  induction l as [|x l IH]; [constructor|].
  apply (insert_desc_sorted key x _ IH).
Qed.

Lemma filter_if_subset {A} (c : bool) (p : A -> bool) (l : list A) x :
  x ∈ (if c then List.filter p l else l) -> x ∈ l.
Proof.
  destruct c; [|done]. rewrite list_elem_of_In, filter_In, <- list_elem_of_In.
  tauto.
Qed.

(** X27. Whatever the filters, [getOrders] with a filter object returns
    stored orders only, each as it is stored, ordered by [createdAt] with
    the newest first; with no filter set it returns all of them. *)
Theorem getOrders_newest_first (f : OrderFilters) st :
  newest_first order_createdAt (getOrders (Some f) st) /\
  (forall o, o ∈ getOrders (Some f) st -> o ∈ orders st) /\
  (truthy_opt (filter_userId f) = false ->
   truthy_opt (filter_businessId f) = false ->
   truthy_opt (filter_status f) = false ->
   getOrders (Some f) st ≡ₚ orders st).
Proof.
  unfold getOrders. split; [apply sort_desc_sorted|]. split.
  - intros o. rewrite sort_desc_perm. intros Ho.
    do 3 apply filter_if_subset in Ho. exact Ho.
  - intros -> -> ->. simpl. apply sort_desc_perm.
Qed.

(** X28. A catalog read changes statuses only, and only from active to
    expired: it keeps the number and the order of the listings, every
    listing keeps all its other fields (the quantity in particular), a
    status other than active is never touched (a sold-out listing stays
    sold out after its expiry date), an active listing stays active exactly
    while its expiry date has not passed, and users, orders, cart and
    session are not written. *)
Theorem getListings_frame now st :
  let st' := snd (getListings now st) in
  length (listings st') = length (listings st) /\
  (forall i l, listings st !! i = Some l ->
     exists l',
       listings st' !! i = Some l' /\ same_but_status l l' /\
       (listing_status l <> "active" -> l' = l) /\
       (listing_status l = "active" ->
        listing_status l'
        = if listing_expiryDate l <? now then "expired" else "active")) /\
  users st' = users st /\ orders st' = orders st /\
  cart st' = cart st /\ session st' = session st.
Proof.
  simpl. split; [by rewrite length_map|]. split; [|done].
  intros i l Hl. exists (expire now l). split.
  { change (map (expire now) (listings st) !! i)
      with ((expire now <$> listings st) !! i).
    by rewrite list_lookup_fmap, Hl. }
  unfold expire, isExpired, same_but_status.
  destruct (String.eqb (listing_status l) "active") eqn:Hact.
  - apply String.eqb_eq in Hact. rewrite andb_true_r.
    destruct (listing_expiryDate l <? now); simpl.
    + split; [done|]. split; [congruence|done].
    + split; [by destruct l|]. split; [done|]. by intros _.
  - apply String.eqb_neq in Hact. rewrite andb_false_r.
    split; [by destruct l|]. split; [done|]. congruence.
Qed.

(** X29. [init] on a storage with no users creates the default
    administrator, who can then log in with the built-in credentials and is
    resolved as an admin; on a storage that has users it adds nobody. In
    both cases listings, orders and cart are left alone. *)
Theorem init_default_admin now newId st :
  (users st = [] ->
   exists admin,
     users (init now newId st) = [admin] /\
     user_id admin = newId /\ user_role admin = "admin" /\
     user_status admin = "active" /\
     forall now',
       login toLowerCase "admin@savebite.com" "admin123" now'
         (init now newId st)
       = (Success "Login successful!",
          set_session (Some (new_Session now' admin)) (init now newId st))) /\
  (users st <> [] -> users (init now newId st) = users st) /\
  listings (init now newId st) = listings st /\
  orders (init now newId st) = orders st /\
  cart (init now newId st) = cart st.
Proof.
  unfold init. split; [|split].
  - intros Hempty. rewrite Hempty. eexists.
    match goal with
    | |- context [getSession now ?s] =>
        pose proof (getSession_frame now s) as (Hus & _)
    end.
    rewrite Hus. simpl. repeat split.
    intros now'. unfold login, find_by_email. rewrite Hus. simpl.
    by rewrite String.eqb_refl.
  - intros Hne. destruct (users st) as [|u us] eqn:Hus; [done|].
    pose proof (getSession_frame now st) as (Hus' & _). by rewrite Hus', Hus.
  - destruct (users st);
      match goal with
      | |- context [getSession now ?s] =>
          pose proof (getSession_frame now s) as (_ & Hls & Hos & Hc)
      end; rewrite Hls, Hos, Hc; done.
Qed.
End ReadFacts.

(** ** The further properties at work on the sample store *)

Lemma register_then_login_witness :
  exists newUser,
    users (snd (register Sample.as_is Scenario.ana Scenario.now "u-ana"
                  Sample.signed_out_store))
    = Sample.all_users ++ [newUser] /\
    user_id newUser = "u-ana" /\
    fst (login Sample.as_is "ana@example.com" "ana-pass" (Scenario.now + 1)
           (snd (register Sample.as_is Scenario.ana Scenario.now "u-ana"
                   Sample.signed_out_store)))
    = Success "Login successful!".
Proof.
  destruct (register_then_login Sample.as_is Scenario.ana Scenario.now "u-ana"
              Sample.signed_out_store _ _ eq_refl)
    as (newUser & Hus & Hid & _ & _ & _ & _ & Hlogin).
  exists newUser. split; [exact Hus|]. split; [exact Hid|].
  destruct (Hlogin (Scenario.now + 1)) as [Hl _].
  exact (f_equal fst Hl).
Defined.

Lemma register_duplicate_email_witness :
  Sample.customer ∈ users Sample.signed_out_store /\
  register Sample.as_is Scenario.sam_again Scenario.now "u-x"
    Sample.signed_out_store
  = (Failure "Email is already registered", Sample.signed_out_store).
Proof.
  assert (Sample.customer ∈ users Sample.signed_out_store) as Hin.
  { simpl. unfold Sample.all_users. do 3 apply list_elem_of_further.
    apply list_elem_of_here. }
  split; [exact Hin|].
  destruct (register_duplicate_email Sample.as_is Scenario.sam_again
              Scenario.now "u-x" Sample.signed_out_store Sample.customer
              Hin eq_refl) as (_ & _ & _).
  reflexivity.
Defined.

Lemma register_unique_emails_witness :
  unique_emails Sample.as_is Sample.all_users /\
  unique_emails Sample.as_is
    (users (snd (register Sample.as_is Scenario.ana Scenario.now "u-ana"
                   Sample.signed_out_store))).
Proof.
  split; [exact sample_users_unique|].
  exact (register_unique_emails Sample.as_is Scenario.ana Scenario.now "u-ana"
           Sample.signed_out_store sample_users_unique).
Defined.

Lemma login_session_lifetime_witness :
  exists u,
    session (snd (login Sample.as_is "sam@example.com" "sam-pass" Scenario.now
                    Sample.signed_out_store))
    = Some (new_Session Scenario.now u) /\
    (exists v,
       caller (Scenario.now + 6 * Sample.day)
         (snd (login Sample.as_is "sam@example.com" "sam-pass" Scenario.now
                 Sample.signed_out_store)) = Some v /\
       user_id v = user_id u) /\
    caller (Scenario.now + 7 * Sample.day)
      (snd (login Sample.as_is "sam@example.com" "sam-pass" Scenario.now
              Sample.signed_out_store)) = None.
Proof.
  destruct (login_session_lifetime Sample.as_is "sam@example.com" "sam-pass"
              Scenario.now Sample.signed_out_store _ _ eq_refl)
    as (u & _ & Hs & Hearly & Hlate).
  exists u. split; [exact Hs|]. split.
  - destruct (Hearly (Scenario.now + 6 * Sample.day)) as (v & Hv & Hid);
      [reflexivity|].
    exists v. split; [|exact Hid]. exact (f_equal fst Hv).
  - destruct (Hlate (Scenario.now + 7 * Sample.day)) as [Hv _];
      [discriminate|].
    exact (f_equal fst Hv).
Defined.

Lemma unauthenticated_calls_fail_witness :
  caller Scenario.now Sample.signed_out_store = None /\
  success (fst (deleteListing "l-salad" Scenario.now Sample.signed_out_store))
  = false /\
  same_data Sample.signed_out_store
    (snd (deleteListing "l-salad" Scenario.now Sample.signed_out_store)).
Proof.
  split; [reflexivity|].
  destruct (unauthenticated_calls_fail Sample.as_is Scenario.now
              Sample.signed_out_store eq_refl)
    as (_ & _ & _ & Hdelete & _).
  exact (Hdelete "l-salad").
Defined.


Lemma updateListing_frame_witness :
  exists updated st',
    updateListing "l-salad" Scenario.soup Scenario.now Sample.cafe_store
    = (Success updated, st') /\
    listing_id updated = "l-salad" /\
    listing_status updated = "active" /\
    listing_quantity updated = 4.
Proof.
  eexists _, _. split; [reflexivity|].
  destruct (updateListing_frame "l-salad" Scenario.soup Scenario.now
              Sample.cafe_store _ _ eq_refl)
    as (u & i & old & _ & _ & _ & _ & _ & Hid & _ & _ & _ & _ & Hq & _).
  split; [exact Hid|]. split; [reflexivity|exact Hq].
Defined.

Lemma deleteListing_removes_witness :
  exists message st',
    deleteListing "l-salad" Scenario.now Sample.cafe_store
    = (Success message, st') /\
    S (length (listings st')) = length (listings Sample.cafe_store) /\
    getListingById "l-salad" st' = None.
Proof.
  eexists _, _. split; [reflexivity|].
  destruct (deleteListing_removes "l-salad" Scenario.now Sample.cafe_store
              _ _ eq_refl)
    as (u & i & old & _ & _ & _ & _ & _ & Hlen & _ & Hgone & _).
  split; [exact Hlen|]. apply Hgone. simpl. apply NoDup_singleton.
Defined.

Lemma sample_cart_distinct : distinct_lines Sample.checkout_store.
Proof. unfold distinct_lines. simpl. apply NoDup_singleton. Qed.


Lemma cart_lines_stay_distinct_witness :
  distinct_lines Sample.checkout_store /\
  distinct_lines
    (snd (addToCart (Sample.item_of Sample.salad2 1) Sample.checkout_store)) /\
  map item_quantity
    (cart (snd (addToCart (Sample.item_of Sample.salad2 1)
                  Sample.checkout_store))) = [3].
Proof.
  split; [exact sample_cart_distinct|].
  destruct (cart_lines_stay_distinct Sample.checkout_store sample_cart_distinct)
    as (Hadd & _).
  split; [exact (Hadd (Sample.item_of Sample.salad2 1))|reflexivity].
Defined.

Lemma createOrder_getOrderById_witness :
  exists order st',
    createOrder Sample.details Scenario.now "o-1" Sample.checkout_store
    = (Success order, st') /\
    getOrderById "o-1" st' = Some order /\
    order_status order = "pending" /\ order_userId order = "u-sam".
Proof.
  assert (forall o, o ∈ orders Sample.checkout_store -> order_id o <> "o-1")
    as Hfresh.
  { intros o Ho. simpl in Ho. by apply elem_of_nil in Ho. }
  assert (cart Sample.checkout_store <> []) as Hcart by discriminate.
  destruct (createOrder_getOrderById Sample.details Scenario.now "o-1"
              Sample.checkout_store Sample.customer eq_refl Hcart Hfresh)
    as (order & st' & Hrun & _ & Hget & Hstatus & Huser & _).
  exists order, st'. repeat split; auto.
Defined.

Lemma createOrder_twice_witness :
  exists order st',
    createOrder Sample.details Scenario.now "o-1" Sample.checkout_store
    = (Success order, st') /\
    createOrder Sample.details (Scenario.now + 1) "o-2" st'
    = (Failure "Cart is empty", st').
Proof.
  eexists _, _. split; [reflexivity|].
  destruct (createOrder_twice Sample.details Scenario.now "o-1"
              Sample.checkout_store _ _ eq_refl
              Sample.details (Scenario.now + 1) "o-2")
    as (_ & _ & _ & Hmsg).
  apply Hmsg. discriminate.
Defined.

Lemma createOrder_within_stock_witness :
  within_stock (cart Sample.checkout_store) (listings Sample.checkout_store) /\
  stock_ok (listings Sample.checkout_store) /\
  stock_ok
    (listings (snd (createOrder Sample.details Scenario.now "o-1"
                      Sample.checkout_store))) /\
  map listing_quantity
    (listings (snd (createOrder Sample.details Scenario.now "o-1"
                      Sample.checkout_store))) = [3; 0].
Proof.
  assert (within_stock (cart Sample.checkout_store)
            (listings Sample.checkout_store)) as Hin.
  { intros item l Hitem Hl. simpl in Hitem, Hl.
    apply list_elem_of_singleton in Hitem as ->.
    apply elem_of_cons in Hl as [->|Hl].
    - discriminate.
    - apply list_elem_of_singleton in Hl as ->. intros _. discriminate. }
  assert (stock_ok (listings Sample.checkout_store)) as Hok.
  { repeat constructor; discriminate. }
  split; [exact Hin|]. split; [exact Hok|].
  split; [|reflexivity].
  exact (createOrder_within_stock Sample.details Scenario.now "o-1"
           Sample.checkout_store sample_cart_distinct Hin Hok).
Defined.

Lemma updateUserStatus_frame_witness :
  exists message st',
    updateUserStatus "u-sam" "blocked" Scenario.now Sample.admin_store
    = (Success message, st') /\
    map user_status (users st')
    = ["active"; "active"; "active"; "blocked"; "blocked"] /\
    listings st' = listings Sample.admin_store.
Proof.
  eexists _, _. split; [reflexivity|].
  destruct (updateUserStatus_frame "u-sam" "blocked" Scenario.now
              Sample.admin_store _ _ eq_refl)
    as (u & i & target & _ & _ & _ & _ & _ & _ & _ & _ & _ & _ & _ & _ & Hls
        & _).
  split; [reflexivity|exact Hls].
Defined.

Lemma updateUserStatus_then_login_witness :
  exists message st',
    updateUserStatus "u-sam" "blocked" Scenario.now Sample.admin_store
    = (Success message, st') /\
    exists m,
      login Sample.as_is "sam@example.com" "sam-pass" (Scenario.now + 1) st'
      = (Failure m, st').
Proof.
  eexists _, _. split; [reflexivity|].
  destruct (updateUserStatus_then_login Sample.as_is "u-sam" "blocked"
              Scenario.now Sample.admin_store _ _ sample_users_unique eq_refl)
    as (target & Hfind & _ & Hblocked & _).
  injection Hfind as <-.
  exact (Hblocked eq_refl "sam-pass" (Scenario.now + 1)).
Defined.

Lemma getUsers_by_role_witness :
  caller Scenario.now Sample.admin_store = Some Sample.admin /\
  fst (getUsers Sample.as_is (Scenario.by_role "business") Scenario.now
         Sample.admin_store)
  = Success [Sample.cafe; Sample.bakery] /\
  fst (getUsers Sample.as_is (Scenario.by_role "business") Scenario.now
         Sample.cafe_store)
  = Failure "Unauthorized: Only admins can view all users".
Proof.
  split; [reflexivity|].
  destruct (getUsers_by_role Sample.as_is Scenario.now Sample.admin_store
              Sample.admin eq_refl) as [_ Hadmin].
  destruct (Hadmin eq_refl) as [_ Hrole].
  destruct (Hrole "business") as [Hrun _]; [discriminate|discriminate|].
  destruct (getUsers_by_role Sample.as_is Scenario.now Sample.cafe_store
              Sample.cafe eq_refl) as [Hother _].
  split.
  - exact (f_equal fst Hrun).
  - assert (user_role Sample.cafe <> "admin") as Hne by discriminate.
    exact (f_equal fst (Hother Hne (Scenario.by_role "business"))).
Defined.

Lemma submitCheckoutForm_placed_witness :
  exists order st',
    submitCheckoutForm Scenario.complete_form Scenario.now "o-1"
      Sample.checkout_store = (CheckoutPlaced order, st') /\
    customerName (order_data order) = "Sam" /\
    Scenario.now < pickupTime (order_data order).
Proof.
  eexists _, _. split; [reflexivity|].
  destruct (submitCheckoutForm_placed Scenario.complete_form Scenario.now "o-1"
              Sample.checkout_store _ _ eq_refl)
    as (_ & _ & _ & t & selected & u & Ht & Hlt & _ & _ & _ & Hdata & _).
  rewrite Hdata. injection Ht as <-. split; [reflexivity|exact Hlt].
Defined.

Lemma addToCart_totalItems_witness :
  totalItems Sample.checkout_store = 2 /\
  totalItems (snd (addToCart (Sample.item_of Sample.salad2 3)
                     Sample.checkout_store)) = 5 /\
  map item_quantity
    (cart (snd (addToCart (Sample.item_of Sample.salad2 3)
                  Sample.checkout_store))) = [5].
Proof.
  assert (Forall (fun line : CartItem float => 0 <= item_quantity line)
            (cart Sample.checkout_store)) as Hlines.
  { repeat constructor. discriminate. }
  assert (0 <= item_quantity (Sample.item_of Sample.salad2 3)) as Hitem
    by discriminate.
  assert (safe_count (totalItems Sample.checkout_store
                      + item_quantity (Sample.item_of Sample.salad2 3)))
    as Hsafe by (split; discriminate).
  destruct (addToCart_totalItems (Sample.item_of Sample.salad2 3)
              Sample.checkout_store Hlines Hitem Hsafe) as [Hcount _].
  split; [reflexivity|]. split; [exact Hcount|reflexivity].
Defined.


Lemma checkout_summary_of_order_witness :
  exists order st',
    createOrder Sample.details Scenario.now "o-1" Sample.mixed_store
    = (Success order, st') /\
    summary_subtotal (checkout_summary (cart Sample.mixed_store))
    = order_subtotal order /\
    summary_tax (checkout_summary (cart Sample.mixed_store)) = 3.0368%float /\
    order_tax order = 3.0368000000000004%float /\
    summary_total (checkout_summary (cart Sample.mixed_store))
    = 40.9968%float /\
    order_total order = 40.99680000000001%float.
Proof.
  eexists _, _. split; [reflexivity|].
  destruct (checkout_summary_of_order Sample.details Scenario.now "o-1"
              Sample.mixed_store _ _ eq_refl)
    as (Hsub & _ & Htax & Htotal & Hstored_tax & Hstored_total).
  split; [exact Hsub|].
  split; [rewrite Htax; reflexivity|].
  split; [rewrite Hstored_tax; reflexivity|].
  split; [rewrite Htotal; reflexivity|].
  rewrite Hstored_total. reflexivity.
Defined.

Lemma formatTimeUntilExpiry_units_witness :
  formatTimeUntilExpiry Scenario.now (Scenario.now + 5400000)
  = "Expires in 1 hour" /\
  formatTimeUntilExpiry Scenario.now (Scenario.now + 3 * Sample.day + 5)
  = "Expires in 3 days" /\
  formatTimeUntilExpiry Scenario.now (Scenario.now + 59999)
  = "Expires in 0 minute".
Proof.
  assert (forall k, 0 <= k -> Scenario.now <= Scenario.now + k) as Hle
    by (intros k Hk; lia).
  rewrite (formatTimeUntilExpiry_units Scenario.now (Scenario.now + 5400000)
             (Hle 5400000 ltac:(discriminate))).
  rewrite (formatTimeUntilExpiry_units Scenario.now
             (Scenario.now + 3 * Sample.day + 5)
             ltac:(discriminate)).
  rewrite (formatTimeUntilExpiry_units Scenario.now (Scenario.now + 59999)
             (Hle 59999 ltac:(discriminate))).
  repeat split; reflexivity.
Defined.

Lemma updateCartItemQuantity_cases_witness :
  updateCartItemQuantity "l-salad" 0 Sample.checkout_store
  = removeFromCart "l-salad" Sample.checkout_store /\
  totalItems (snd (updateCartItemQuantity "l-salad" 5 Sample.checkout_store))
  = 5 /\
  snd (updateCartItemQuantity "l-bread" 5 Sample.checkout_store)
  = Sample.checkout_store.
Proof.
  destruct (updateCartItemQuantity_cases "l-salad" 0 Sample.checkout_store)
    as (_ & _ & Hzero).
  destruct (updateCartItemQuantity_cases "l-salad" 5 Sample.checkout_store)
    as (_ & Hset & _).
  destruct (updateCartItemQuantity_cases "l-bread" 5 Sample.checkout_store)
    as (Hmiss & _).
  split; [apply Hzero; [exact sample_cart_distinct|discriminate]|].
  split.
  - destruct (Hset (Sample.item_of Sample.salad2 2) sample_cart_distinct
                (list_elem_of_here _ _) eq_refl eq_refl) as [_ Hcount].
    exact Hcount.
  - apply Hmiss. intros it Hit. simpl in Hit.
    apply list_elem_of_singleton in Hit as ->. discriminate.
Defined.

Lemma getOrders_newest_first_witness :
  map order_id (orders Sample.cafe_store) = ["o-1"; "o-2"] /\
  map order_id
    (getOrders
       (Some {| filter_userId := None; filter_businessId := None;
                filter_status := None |}) Sample.cafe_store)
  = ["o-2"; "o-1"] /\
  getOrders
    (Some {| filter_userId := None; filter_businessId := None;
             filter_status := None |}) Sample.cafe_store
  ≡ₚ orders Sample.cafe_store.
Proof.
  destruct (getOrders_newest_first
              {| filter_userId := None; filter_businessId := None;
                 filter_status := None |} Sample.cafe_store)
    as (_ & _ & Hall).
  split; [reflexivity|]. split; [reflexivity|].
  exact (Hall eq_refl eq_refl eq_refl).
Defined.

Lemma init_default_admin_witness :
  exists admin,
    users (init Scenario.now "u-root" Scenario.fresh_store) = [admin] /\
    user_role admin = "admin" /\
    fst (login Sample.as_is "admin@savebite.com" "admin123" (Scenario.now + 1)
           (init Scenario.now "u-root" Scenario.fresh_store))
    = Success "Login successful!" /\
    users (init Scenario.now "u-root" Sample.signed_out_store)
    = Sample.all_users.
Proof.
  destruct (init_default_admin Sample.as_is Scenario.now "u-root"
              Scenario.fresh_store) as (Hfresh & _).
  destruct (init_default_admin Sample.as_is Scenario.now "u-root"
              Sample.signed_out_store) as (_ & Hkeep & _).
  destruct (Hfresh eq_refl) as (admin & Hus & _ & Hrole & _ & Hlogin).
  exists admin. split; [exact Hus|]. split; [exact Hrole|].
  split; [exact (f_equal fst (Hlogin (Scenario.now + 1)))|].
  apply Hkeep. discriminate.
Defined.
